(** * The contextual-menu widget of the graph canvas

    A shallow embedding of [packages/g6/src/plugin/widget/menu/index.ts]
    (class [Menu]) and the properties of its show / hide / destroy
    life cycle.

    The widget is single-threaded JavaScript.  Its state is the instance
    fields ([this.menu], [this.handler], ...) together with the part of the
    document the methods touch: the click listeners registered on the
    overlay and on [document.body], and the parent of the overlay element.
    [onMenuShow] is an [async] function with one [await]; it is embedded as
    the code that runs up to the [await] and the code that runs when the
    awaited promise settles, with the suspended frames kept in the state. *)

From Stdlib Require Import ZArith List String Bool Arith Lia.
Import ListNotations.

Open Scope string_scope.
Open Scope Z_scope.
Open Scope list_scope.

(** ** JavaScript values used by the widget *)

(** [HTMLElement | string], the two kinds of settled menu content.  An
    element matters to the widget only through its [outerHTML]. *)
Inductive Content : Type :=
| CString (s : string)
| CElement (outerHTML : string).

(** The value returned by [getContent]:
    [HTMLElement | string | Promise<HTMLElement | string>]. *)
Inductive MenuContent : Type :=
| MString (s : string)
| MElement (outerHTML : string)
| MPromise.

Definition isString (c : Content) : bool :=
  match c with CString _ => true | CElement _ => false end.

(** The markup written to [innerHTML] for a settled content value:
    [isString(c) ? c : c.outerHTML]. *)
Definition markup (c : Content) : string :=
  match c with CString s => s | CElement h => h end.

(** Truthiness of a value that is [undefined] or a string. *)
Definition truthy (v : option string) : bool :=
  match v with
  | Some s => negb (s =? "")%string
  | None => false
  end.

(** Truthiness of [this.asyncMenu]: [undefined] and the empty string are
    falsy, an element is truthy. *)
Definition truthy_content (v : option Content) : bool :=
  match v with
  | Some (CString s) => negb (s =? "")%string
  | Some (CElement _) => true
  | None => false
  end.

(** [a != b] on values that are [undefined] or strings: no coercion takes
    place, so it is plain disequality. *)
Definition loose_neq (a b : option string) : bool :=
  match a, b with
  | Some s, Some t => negb (s =? t)%string
  | None, None => false
  | _, _ => true
  end.

(** [arr.indexOf(s) === -1] *)
Fixpoint indexOf (arr : list string) (s : string) : option nat :=
  match arr with
  | [] => None
  | t :: arr' =>
      if (t =? s)%string then Some O
      else match indexOf arr' s with
           | Some i => Some (S i)
           | None => None
           end
  end.

Definition not_found (r : option nat) : bool :=
  match r with None => true | Some _ => false end.

(** [arr.indexOf(v)] for a [v] that may be [undefined]: an array of
    strings does not contain [undefined]. *)
Definition indexOf_value (arr : list string) (v : option string) : option nat :=
  match v with
  | Some s => indexOf arr s
  | None => None
  end.

(** ** Events, layout and configuration *)

Record Point : Type := { x : Z; y : Z }.

(** The fields of [IG6GraphEvent] read by the widget.  [itemId] and
    [itemType] are [undefined] ([None]) or strings; [preventDefault] tells
    whether the event has that method. *)
Record IG6GraphEvent : Type := {
  itemId : option string;
  itemType : option string;
  viewport : Point;
  preventDefault : bool
}.

(** What the show handler reads from the host graph and the document when
    it positions the overlay: [graph.getSize()], the overlay's
    [getBoundingClientRect()], and [offsetTop] / [offsetLeft] of the graph
    container.  Pixel quantities are integers here. *)
Record Layout : Type := {
  size : Z * Z;
  bbox_width : Z;
  bbox_height : Z;
  offsetTop : Z;
  offsetLeft : Z
}.

Inductive Trigger : Type := click | contextmenu.

Definition ElemId : Type := nat.

(** [options.container]: [null], an element, or the id of an element. *)
Inductive ContainerOption : Type :=
| ContainerNull
| ContainerElement (el : ElemId)
| ContainerId (id : string).

(** [MenuConfig].  The callbacks [handleMenuClick] and [onHide] live
    outside the widget: [handleMenuClick] records whether one is
    configured, and every call the widget makes to a callback is recorded
    in the state's call log. *)
Record MenuConfig : Type := {
  handleMenuClick : bool;
  getContent : IG6GraphEvent -> MenuContent;
  offsetX : option Z;
  offsetY : option Z;
  shouldBegin : IG6GraphEvent -> bool;
  itemTypes : list string;
  trigger : Trigger;
  onHide : unit -> bool;
  loadingContent : Content;
  liHoverStyle : list (string * string);
  container : ContainerOption;
  className : option string
}.

Definition getDefaultCfgs : MenuConfig := {|
  handleMenuClick := false;
  getContent := fun _ =>
    MString "
          <ul class='g6-contextmenu-ul'>
            <li class='g6-contextmenu-li'>菜单项1</li>
            <li class='g6-contextmenu-li'>菜单项2</li>
          </ul>
        ";
  offsetX := Some 6;
  offsetY := Some 6;
  shouldBegin := fun _ => true;
  itemTypes := ["node"; "edge"; "combo"];
  trigger := click;
  onHide := fun _ => true;
  loadingContent := CString "<div class='g6-loading-dom'></div>";
  liHoverStyle := [("color", "white"); ("background-color", "#227EFF")];
  container := ContainerNull;
  className := None
|}.

(** [getEvents]: the host events bound to the show handler. *)
Definition getEvents (options : MenuConfig) : list string :=
  match trigger options with
  | click => ["click"; "touchend"]
  | contextmenu => ["contextmenu"]
  end.

(** ** The overlay element and the widget state *)

Inductive Visibility : Type := visible | hidden.

(** The inline style of the overlay; [top] and [left] are in [px]
    ([left] is unset until the first display). *)
Record Style : Type := {
  top : Z;
  left : option Z;
  position : string;
  visibility : Visibility
}.

(** The closure [handleMenuClickWrapper] of one show: its identity and the
    [e.itemId] it captured. *)
Record WrapperClosure : Type := {
  wid : nat;
  captured_itemId : option string
}.

(** The closure [handler] of one show: its identity and its captured
    mutable variable [triggeredByFirstClick]. *)
Record HandlerClosure : Type := {
  hid : nat;
  triggeredByFirstClick : bool
}.

Record Overlay : Type := {
  class : string;
  style : Style;
  innerHTML : string;
  clickListeners : list WrapperClosure;
  parentNode : option ElemId
}.

(** A call made by the widget to something outside it. *)
Inductive Call : Type :=
| CallPreventDefault (e : IG6GraphEvent)
| CallShouldBegin (e : IG6GraphEvent)
| CallGetContent (e : IG6GraphEvent)
| CallHandleMenuClick (target : nat) (item : option string)
| CallOnHide.

(** The instance fields [menu], [handleMenuClickWrapper], [handler],
    [currentTarget], [asyncMenu]; the click listeners of [document.body];
    the frames of [onMenuShow] suspended at its [await], each with the
    event it was called with; a supply of closure and frame identities;
    and the log of outside calls, oldest first. *)
Record State : Type := {
  menu : Overlay;
  handleMenuClickWrapper : option nat;
  handler : option nat;
  currentTarget : option string;
  asyncMenu : option Content;
  bodyListeners : list HandlerClosure;
  suspended : list (nat * IG6GraphEvent);
  nextId : nat;
  calls : list Call
}.

Definition set_style (s : Style) (m : Overlay) : Overlay :=
  {| class := class m; style := s; innerHTML := innerHTML m;
     clickListeners := clickListeners m; parentNode := parentNode m |}.

Definition set_innerHTML (h : string) (m : Overlay) : Overlay :=
  {| class := class m; style := style m; innerHTML := h;
     clickListeners := clickListeners m; parentNode := parentNode m |}.

Definition set_clickListeners (l : list WrapperClosure) (m : Overlay) : Overlay :=
  {| class := class m; style := style m; innerHTML := innerHTML m;
     clickListeners := l; parentNode := parentNode m |}.

Definition set_parentNode (p : option ElemId) (m : Overlay) : Overlay :=
  {| class := class m; style := style m; innerHTML := innerHTML m;
     clickListeners := clickListeners m; parentNode := p |}.

Definition with_menu (m : Overlay) (st : State) : State :=
  {| menu := m; handleMenuClickWrapper := handleMenuClickWrapper st;
     handler := handler st; currentTarget := currentTarget st;
     asyncMenu := asyncMenu st; bodyListeners := bodyListeners st;
     suspended := suspended st; nextId := nextId st; calls := calls st |}.

Definition with_handleMenuClickWrapper (w : option nat) (st : State) : State :=
  {| menu := menu st; handleMenuClickWrapper := w;
     handler := handler st; currentTarget := currentTarget st;
     asyncMenu := asyncMenu st; bodyListeners := bodyListeners st;
     suspended := suspended st; nextId := nextId st; calls := calls st |}.

Definition with_handler (h : option nat) (st : State) : State :=
  {| menu := menu st; handleMenuClickWrapper := handleMenuClickWrapper st;
     handler := h; currentTarget := currentTarget st;
     asyncMenu := asyncMenu st; bodyListeners := bodyListeners st;
     suspended := suspended st; nextId := nextId st; calls := calls st |}.

Definition with_currentTarget (t : option string) (st : State) : State :=
  {| menu := menu st; handleMenuClickWrapper := handleMenuClickWrapper st;
     handler := handler st; currentTarget := t;
     asyncMenu := asyncMenu st; bodyListeners := bodyListeners st;
     suspended := suspended st; nextId := nextId st; calls := calls st |}.

Definition with_asyncMenu (a : option Content) (st : State) : State :=
  {| menu := menu st; handleMenuClickWrapper := handleMenuClickWrapper st;
     handler := handler st; currentTarget := currentTarget st;
     asyncMenu := a; bodyListeners := bodyListeners st;
     suspended := suspended st; nextId := nextId st; calls := calls st |}.

Definition with_bodyListeners (l : list HandlerClosure) (st : State) : State :=
  {| menu := menu st; handleMenuClickWrapper := handleMenuClickWrapper st;
     handler := handler st; currentTarget := currentTarget st;
     asyncMenu := asyncMenu st; bodyListeners := l;
     suspended := suspended st; nextId := nextId st; calls := calls st |}.

Definition with_suspended (l : list (nat * IG6GraphEvent)) (st : State) : State :=
  {| menu := menu st; handleMenuClickWrapper := handleMenuClickWrapper st;
     handler := handler st; currentTarget := currentTarget st;
     asyncMenu := asyncMenu st; bodyListeners := bodyListeners st;
     suspended := l; nextId := nextId st; calls := calls st |}.

Definition with_nextId (n : nat) (st : State) : State :=
  {| menu := menu st; handleMenuClickWrapper := handleMenuClickWrapper st;
     handler := handler st; currentTarget := currentTarget st;
     asyncMenu := asyncMenu st; bodyListeners := bodyListeners st;
     suspended := suspended st; nextId := n; calls := calls st |}.

Definition log (c : Call) (st : State) : State :=
  {| menu := menu st; handleMenuClickWrapper := handleMenuClickWrapper st;
     handler := handler st; currentTarget := currentTarget st;
     asyncMenu := asyncMenu st; bodyListeners := bodyListeners st;
     suspended := suspended st; nextId := nextId st;
     calls := calls st ++ [c] |}.

(** ** DOM helpers *)

(** [modifyCSS(menuDom, { visibility })] *)
Definition modifyCSS_visibility (v : Visibility) (m : Overlay) : Overlay :=
  set_style {| top := top (style m); left := left (style m);
               position := position (style m); visibility := v |} m.

(** [modifyCSS(menuDom, { top, left, visibility })] *)
Definition modifyCSS_place (t l : Z) (v : Visibility) (m : Overlay) : Overlay :=
  set_style {| top := t; left := Some l;
               position := position (style m); visibility := v |} m.

(** [menuDom.removeEventListener('click', w)]: listeners are removed by
    identity. *)
Definition removeEventListener (w : nat) (m : Overlay) : Overlay :=
  set_clickListeners
    (filter (fun c => negb (Nat.eqb (wid c) w)) (clickListeners m)) m.

(** [menuDom.addEventListener('click', w)] for a closure just created. *)
Definition addEventListener (c : WrapperClosure) (m : Overlay) : Overlay :=
  set_clickListeners (clickListeners m ++ [c]) m.

(** [document.body.removeEventListener('click', h)] *)
Definition body_removeEventListener (h : nat) (l : list HandlerClosure)
  : list HandlerClosure :=
  filter (fun c => negb (Nat.eqb (hid c) h)) l.

(** How a call ends: it returns, it throws, or (for the [async] show
    handler) it is suspended at its [await]. *)
Inductive Completion : Type := Returned | Thrown | Awaiting.

(** ** The methods of [Menu] *)

Section Menu.

(** [this.options] and the host: [this.graph.container] and
    [document.getElementById].  None of them changes after [init]. *)
Variable options : MenuConfig.
Variable graph_container : ElemId.
Variable getElementById : string -> option ElemId.

(** The container lookup shared by [init] and [destroy]:
    [[
    let container = this.options.container;
    if (!container) container = this.graph.container;
    if (isString(container)) container = document.getElementById(container);
    ]]
    The empty string is falsy, so it selects the graph container too.
    [None] is the [null] of an id that names no element. *)
Definition resolve_container : option ElemId :=
  match container options with
  | ContainerNull => Some graph_container
  | ContainerElement el => Some el
  | ContainerId id =>
      if (id =? "")%string then Some graph_container else getElementById id
  end.

(** The state [init] leaves when the container resolves to [c]: the
    overlay [createDOM] built, hidden by [modifyCSS] and appended to
    [c]; the other instance fields still [undefined]. *)
Definition created (c : ElemId) : State :=
  let menu :=
    {| class := match className options with
                | Some n => if (n =? "")%string
                            then "g6-component-contextmenu" else n
                | None => "g6-component-contextmenu"
                end;
       style := {| top := 0; left := None;
                   position := "absolute"; visibility := hidden |};
       innerHTML := "";
       clickListeners := [];
       parentNode := None |} in
  {| menu := set_parentNode (Some c) menu;
     handleMenuClickWrapper := None;
     handler := None;
     currentTarget := None;
     asyncMenu := None;
     bodyListeners := [];
     suspended := [];
     nextId := O;
     calls := [] |}.

(** [init].  [container.appendChild] on [null] throws, and then
    [this.menu] is never assigned: there is no state ([None]).  The hover
    rule that [init] adds to the style sheets is not part of the state. *)
Definition init : option State :=
  match resolve_container with
  | None => None
  | Some c => Some (created c)
  end.

(** [removeMenuEventListener].  The wrapper field is reset to [null];
    the [handler] field is not, and removing a listener that is not
    registered does nothing. *)
Definition removeMenuEventListener (st : State) : State :=
  let st1 :=
    match handleMenuClickWrapper st with
    | Some w =>
        with_handleMenuClickWrapper None
          (with_menu (removeEventListener w (menu st)) st)
    | None => st
    end in
  match handler st1 with
  | Some h =>
      with_bodyListeners (body_removeEventListener h (bodyListeners st1)) st1
  | None => st1
  end.

(** [onMenuHide].  [this.menu] is set in every state, so the guard
    [if (menuDom)] is passed. *)
Definition onMenuHide (st : State) : State :=
  removeMenuEventListener
    (with_menu (modifyCSS_visibility hidden (menu st)) st).

(** The item-type filter of [onMenuShow], lines 144-154: [true] when the
    handler goes on to the display predicate, [false] when it hides the
    menu and returns. *)
Definition itemType_allowed (e : IG6GraphEvent) : bool :=
  if negb (truthy (itemId e)) then
    negb (not_found (indexOf (itemTypes options) "canvas"))
  else
    negb (truthy (itemId e) && truthy (itemType e)
          && not_found (indexOf_value (itemTypes options) (itemType e))).

(** [offsetX || 0] *)
Definition or_zero (o : option Z) : Z :=
  match o with Some z => z | None => 0 end.

(** Lines 162-178: the position of the overlay. *)
Definition overlay_position (e : IG6GraphEvent) (lay : Layout) : Z * Z :=
  let width := fst (size lay) in
  let height := snd (size lay) in
  let offsetX := or_zero (offsetX options) in
  let offsetY := or_zero (offsetY options) in
  let graphTop := offsetTop lay in
  let graphLeft := offsetLeft lay in
  let x0 := x (viewport e) + graphLeft + offsetX in
  let y0 := y (viewport e) + graphTop + offsetY - 55 in
  let x1 := if x0 + bbox_width lay >? width
            then x0 - (bbox_width lay + graphLeft + offsetX) else x0 in
  let y1 := if y0 + bbox_height lay >? height
            then y0 - (bbox_height lay + graphTop + offsetY) else y0 in
  (x1, y1).

(** Lines 211-231: detach the previous listeners, then attach the click
    wrapper (when [handleMenuClick] is configured) and a fresh
    outside-click handler. *)
Definition attach_listeners (e : IG6GraphEvent) (st : State) : State :=
  let st := removeMenuEventListener st in
  let st :=
    if handleMenuClick options then
      let w := {| wid := nextId st; captured_itemId := itemId e |} in
      with_nextId (S (nextId st))
        (with_menu (addEventListener w (menu st))
           (with_handleMenuClickWrapper (Some (wid w)) st))
    else st in
  let h := {| hid := nextId st;
              triggeredByFirstClick :=
                match trigger options with
                | click => true
                | contextmenu => false
                end |} in
  with_nextId (S (nextId st))
    (with_handler (Some (hid h))
       (with_bodyListeners (bodyListeners st ++ [h]) st)).

(** Lines 201-231, the code after the [await]: the staleness check, the
    injection of [this.asyncMenu], the listeners.  Reading [outerHTML]
    of an [asyncMenu] that is [undefined] throws. *)
Definition onMenuShow_rest (e : IG6GraphEvent) (st : State)
  : Completion * State :=
  if loose_neq (itemId e) (currentTarget st) then (Returned, st)
  else
    match asyncMenu st with
    | None => (Thrown, st)
    | Some c =>
        (Returned,
         attach_listeners e (with_menu (set_innerHTML (markup c) (menu st)) st))
    end.

(** Lines 179-183: [modifyCSS(menuDom, { top, left, visibility })] at
    the computed position. *)
Definition place_overlay (e : IG6GraphEvent) (lay : Layout) (st : State)
  : State :=
  let '(x1, y1) := overlay_position e lay in
  with_menu (modifyCSS_place y1 x1 visible (menu st)) st.

(** Lines 184-231: the content is written by kind.  For a promise the
    loading placeholder is written first; then either the provider is
    called again and its result awaited (line 199: the frame is added
    to [suspended]), or the cached [asyncMenu] is used at once. *)
Definition inject_content (e : IG6GraphEvent) (menu_content : MenuContent)
    (st : State) : Completion * State :=
  match menu_content with
  | MString s =>
      (Returned,
       attach_listeners e (with_menu (set_innerHTML s (menu st)) st))
  | MElement h =>
      (Returned,
       attach_listeners e (with_menu (set_innerHTML h (menu st)) st))
  | MPromise =>
      let st :=
        with_menu (set_innerHTML (markup (loadingContent options))
                     (menu st)) st in
      if loose_neq (itemId e) (currentTarget st)
         || negb (truthy_content (asyncMenu st))
      then
        let st := with_currentTarget (itemId e) st in
        let st := log (CallGetContent e) st in
        (Awaiting,
         with_nextId (S (nextId st))
           (with_suspended (suspended st ++ [(nextId st, e)]) st))
      else onMenuShow_rest e st
  end.

(** [onMenuShow(e)] up to its return or its [await]. *)
Definition onMenuShow (e : IG6GraphEvent) (lay : Layout) (st : State)
  : Completion * State :=
  let st := if preventDefault e then log (CallPreventDefault e) st else st in
  let st := onMenuHide st in
  if negb (itemType_allowed e) then (Returned, onMenuHide st)
  else
    let st := log (CallShouldBegin e) st in
    if negb (shouldBegin options e) then (Returned, st)
    else
      let st := log (CallGetContent e) st in
      let menu_content := getContent options e in
      inject_content e menu_content (place_overlay e lay st).

(** The continuation of frame [e] when the awaited value settles to [v]:
    [this.asyncMenu = v] and then the rest of the function. *)
Definition onMenuShow_resume (e : IG6GraphEvent) (v : Content) (st : State)
  : Completion * State :=
  onMenuShow_rest e (with_asyncMenu (Some v) st).

(** [destroy].  [removeChild] throws when the container is [null] or is
    not the parent of the overlay; the listeners are gone by then. *)
Definition destroy (st : State) : Completion * State :=
  let st := removeMenuEventListener st in
  match resolve_container with
  | None => (Thrown, st)
  | Some c =>
      match parentNode (menu st) with
      | Some p =>
          if Nat.eqb p c
          then (Returned, with_menu (set_parentNode None (menu st)) st)
          else (Thrown, st)
      | None => (Thrown, st)
      end
  end.

End Menu.

(** ** The event loop

    Between two turns of the event loop one of the following happens to
    the widget. *)
Inductive Action : Type :=
| Show (e : IG6GraphEvent) (lay : Layout)
    (** the host graph emits a trigger event: [onMenuShow(e)] is called *)
| Settle (frame : nat) (v : Content)
    (** the promise awaited by a suspended frame is fulfilled with [v] *)
| Reject (frame : nat)
    (** the promise awaited by a suspended frame is rejected: the frame
        ends without running further *)
| ClickBody
    (** a click event reaches [document.body] *)
| ClickOverlay (target : nat)
    (** a click event reaches the overlay; when the overlay is in the
        document the same event then reaches the body, which is a
        [ClickBody] of its own *)
| Destroy.

Section EventLoop.

Variable options : MenuConfig.
Variable graph_container : ElemId.
Variable getElementById : string -> option ElemId.

(** The body of the closure [handler] (lines 222-228), run for the
    closure registered under identity [h].  A listener removed earlier
    in the same dispatch is not called. *)
Definition run_handler (h : nat) (st : State) : State :=
  match find (fun c => Nat.eqb (hid c) h) (bodyListeners st) with
  | None => st
  | Some c =>
      if triggeredByFirstClick c then
        with_bodyListeners
          (map (fun c' =>
                  if Nat.eqb (hid c') h
                  then {| hid := h; triggeredByFirstClick := false |}
                  else c')
               (bodyListeners st)) st
      else onMenuHide st
  end.

(** Dispatch of a click on [document.body]: the listeners registered
    when the dispatch starts, in registration order. *)
Definition body_click (st : State) : State :=
  fold_left (fun s h => run_handler h s) (map hid (bodyListeners st)) st.

(** The body of [handleMenuClickWrapper] (lines 215-217): it forwards
    [event.target] and the captured [e.itemId] to [handleMenuClick]. *)
Definition overlay_click (target : nat) (st : State) : State :=
  fold_left (fun s c => log (CallHandleMenuClick target (captured_itemId c)) s)
            (clickListeners (menu st)) st.

Definition frame_of (f : nat) (st : State) : option IG6GraphEvent :=
  match find (fun p => Nat.eqb (fst p) f) (suspended st) with
  | Some p => Some (snd p)
  | None => None
  end.

Definition drop_frame (f : nat) (st : State) : State :=
  with_suspended
    (filter (fun p => negb (Nat.eqb (fst p) f)) (suspended st)) st.

Definition step (a : Action) (st : State) : State :=
  match a with
  | Show e lay => snd (onMenuShow options e lay st)
  | Settle f v =>
      match frame_of f st with
      | Some e => snd (onMenuShow_resume options e v (drop_frame f st))
      | None => st
      end
  | Reject f => drop_frame f st
  | ClickBody => body_click st
  | ClickOverlay target => overlay_click target st
  | Destroy => snd (destroy options graph_container getElementById st)
  end.

(** The state after a sequence of actions, oldest first. *)
Definition run (acts : list Action) (st : State) : State :=
  fold_left (fun s a => step a s) acts st.

End EventLoop.

(** ** Observations *)

(** The menu is displayed: the overlay is visible and holds markup [m]. *)
Definition displayed_with (m : string) (st : State) : Prop :=
  visibility (style (menu st)) = visible /\ innerHTML (menu st) = m.

(** The markup written for a content value of each kind before the show
    returns or suspends: the content itself, or for a deferred content the
    cached result when the cache applies and the loading placeholder when
    it does not. *)
Definition written_markup (options : MenuConfig) (menu_content : MenuContent)
    (e : IG6GraphEvent) (st : State) : string :=
  match menu_content with
  | MString s => s
  | MElement h => h
  | MPromise =>
      if loose_neq (itemId e) (currentTarget st)
         || negb (truthy_content (asyncMenu st))
      then markup (loadingContent options)
      else match asyncMenu st with
           | Some c => markup c
           | None => markup (loadingContent options)
           end
  end.

(** The markup a show of [e] that passes the filters writes first. *)
Definition first_markup (options : MenuConfig) (e : IG6GraphEvent) (st : State)
  : string :=
  written_markup options (getContent options e) e st.

Definition is_getContent (c : Call) : bool :=
  match c with CallGetContent _ => true | _ => false end.

(** How many times the content provider has been invoked. *)
Definition provider_calls (st : State) : nat :=
  List.length (filter is_getContent (calls st)).

(** No listener of the widget is attached, on the overlay or on the body. *)
Definition no_listeners (st : State) : Prop :=
  clickListeners (menu st) = [] /\ bodyListeners st = [].

(** The listener discipline: whatever is attached is what the instance
    fields refer to, one closure at most on each target. *)
Definition listeners_tracked (st : State) : Prop :=
  (clickListeners (menu st) = [] /\ handleMenuClickWrapper st = None
   \/ exists c, clickListeners (menu st) = [c]
                /\ handleMenuClickWrapper st = Some (wid c))
  /\ (bodyListeners st = []
      \/ exists c, bodyListeners st = [c] /\ handler st = Some (hid c)).

(** The state in which the filters of [onMenuShow] are evaluated: lines
    141-142 have run. *)
Definition show_prelude (e : IG6GraphEvent) (st : State) : State :=
  onMenuHide (if preventDefault e then log (CallPreventDefault e) st else st).

(** The cache test of line 197 fails: the provider's result for this
    target is taken from [asyncMenu]. *)
Definition cache_applies (e : IG6GraphEvent) (st : State) : bool :=
  negb (loose_neq (itemId e) (currentTarget st)
        || negb (truthy_content (asyncMenu st))).

(** The show of [e] runs to the end of the function in the same turn: it
    passes both filters and its content is at hand. *)
Definition show_completes (options : MenuConfig) (e : IG6GraphEvent)
    (st : State) : bool :=
  itemType_allowed options e && shouldBegin options e
  && match getContent options e with
     | MPromise => cache_applies e st
     | _ => true
     end.

(** The show of [e] is suspended at the [await]: it passes both filters,
    its content is deferred and the cache does not apply. *)
Definition show_suspends (options : MenuConfig) (e : IG6GraphEvent)
    (st : State) : bool :=
  itemType_allowed options e && shouldBegin options e
  && match getContent options e with
     | MPromise => negb (cache_applies e st)
     | _ => false
     end.

(** The calls [onMenuShow(e)] makes before it returns or suspends. *)
Definition show_calls (options : MenuConfig) (e : IG6GraphEvent) (st : State)
  : list Call :=
  (if preventDefault e then [CallPreventDefault e] else [])
  ++ (if itemType_allowed options e then
        CallShouldBegin e
        :: (if shouldBegin options e then
              CallGetContent e
              :: match getContent options e with
                 | MPromise =>
                     if cache_applies e st then [] else [CallGetContent e]
                 | _ => []
                 end
            else [])
      else []).

(** The invariant of the life cycle: the listeners are tracked by the
    instance fields, [onHide] has not been called, and the overlay is
    either detached or a child of the resolved container. *)
Definition lifecycle_invariant (options : MenuConfig) (graph_container : ElemId)
    (getElementById : string -> option ElemId) (st : State) : Prop :=
  listeners_tracked st
  /\ ~ In CallOnHide (calls st)
  /\ (parentNode (menu st) = None
      \/ parentNode (menu st)
         = resolve_container options graph_container getElementById).

(** ** Sample inputs *)

(** A configuration whose provider always answers with a promise. *)
Definition deferred_options : MenuConfig := {|
  handleMenuClick := true;
  getContent := fun _ => MPromise;
  offsetX := Some 6;
  offsetY := Some 6;
  shouldBegin := fun _ => true;
  itemTypes := ["node"; "edge"; "combo"];
  trigger := click;
  onHide := fun _ => true;
  loadingContent := CString "<div class='g6-loading-dom'></div>";
  liHoverStyle := [("color", "white"); ("background-color", "#227EFF")];
  container := ContainerNull;
  className := None
|}.

(** A configuration that allows the canvas but whose predicate refuses. *)
Definition refusing_options : MenuConfig := {|
  handleMenuClick := false;
  getContent := fun _ => MString "<ul></ul>";
  offsetX := Some 6;
  offsetY := Some 6;
  shouldBegin := fun _ => false;
  itemTypes := ["canvas"];
  trigger := contextmenu;
  onHide := fun _ => true;
  loadingContent := CString "<div class='g6-loading-dom'></div>";
  liHoverStyle := [];
  container := ContainerNull;
  className := None
|}.

Definition node_event (id : string) : IG6GraphEvent :=
  {| itemId := Some id; itemType := Some "node";
     viewport := {| x := 120; y := 200 |}; preventDefault := true |}.

Definition untyped_event (id : string) : IG6GraphEvent :=
  {| itemId := Some id; itemType := None;
     viewport := {| x := 120; y := 200 |}; preventDefault := true |}.

Definition canvas_event : IG6GraphEvent :=
  {| itemId := None; itemType := None;
     viewport := {| x := 470; y := 490 |}; preventDefault := false |}.

(** A node near the lower right corner of the canvas. *)
Definition corner_event : IG6GraphEvent :=
  {| itemId := Some "n9"; itemType := Some "node";
     viewport := {| x := 470; y := 520 |}; preventDefault := true |}.

Definition sample_layout : Layout :=
  {| size := (500, 500); bbox_width := 80; bbox_height := 40;
     offsetTop := 10; offsetLeft := 20 |}.

Definition host_container : ElemId := 7%nat.

Definition no_elements : string -> option ElemId := fun _ => None.

(** The state after [init] and a sequence of actions, for a host whose
    container is [host_container]; [None] when [init] throws. *)
Definition started (options : MenuConfig) (acts : list Action) : option State :=
  match init options host_container no_elements with
  | Some st => Some (run options host_container no_elements acts st)
  | None => None
  end.

(** ** What the helpers leave alone *)

Section Frame.

Variable options : MenuConfig.

Lemma removeMenuEventListener_style st :
  style (menu (removeMenuEventListener st)) = style (menu st).
Proof.
  unfold removeMenuEventListener.
  destruct st as [m w h ct am bl su n cl]; simpl.
  destruct w; simpl; destruct h; reflexivity.
Qed.

Lemma removeMenuEventListener_innerHTML st :
  innerHTML (menu (removeMenuEventListener st)) = innerHTML (menu st).
Proof.
  unfold removeMenuEventListener.
  destruct st as [m w h ct am bl su n cl]; simpl.
  destruct w; simpl; destruct h; reflexivity.
Qed.

Lemma removeMenuEventListener_parentNode st :
  parentNode (menu (removeMenuEventListener st)) = parentNode (menu st).
Proof.
  unfold removeMenuEventListener.
  destruct st as [m w h ct am bl su n cl]; simpl.
  destruct w; simpl; destruct h; reflexivity.
Qed.

(** Everything that is not a listener or the wrapper field. *)
Lemma removeMenuEventListener_fields st :
  handler (removeMenuEventListener st) = handler st
  /\ currentTarget (removeMenuEventListener st) = currentTarget st
  /\ asyncMenu (removeMenuEventListener st) = asyncMenu st
  /\ suspended (removeMenuEventListener st) = suspended st
  /\ nextId (removeMenuEventListener st) = nextId st
  /\ calls (removeMenuEventListener st) = calls st.
Proof.
  unfold removeMenuEventListener.
  destruct st as [m w h ct am bl su n cl]; simpl.
  destruct w; simpl; destruct h; simpl; repeat split; reflexivity.
Qed.

Lemma onMenuHide_style st :
  style (menu (onMenuHide st))
  = {| top := top (style (menu st)); left := left (style (menu st));
       position := position (style (menu st)); visibility := hidden |}.
Proof. unfold onMenuHide. rewrite removeMenuEventListener_style. reflexivity. Qed.

Lemma onMenuHide_innerHTML st :
  innerHTML (menu (onMenuHide st)) = innerHTML (menu st).
Proof. unfold onMenuHide. rewrite removeMenuEventListener_innerHTML. reflexivity. Qed.

Lemma onMenuHide_parentNode st :
  parentNode (menu (onMenuHide st)) = parentNode (menu st).
Proof. unfold onMenuHide. rewrite removeMenuEventListener_parentNode. reflexivity. Qed.

Lemma onMenuHide_fields st :
  handler (onMenuHide st) = handler st
  /\ currentTarget (onMenuHide st) = currentTarget st
  /\ asyncMenu (onMenuHide st) = asyncMenu st
  /\ suspended (onMenuHide st) = suspended st
  /\ nextId (onMenuHide st) = nextId st
  /\ calls (onMenuHide st) = calls st.
Proof.
  unfold onMenuHide.
  exact (removeMenuEventListener_fields
           (with_menu (modifyCSS_visibility hidden (menu st)) st)).
Qed.

Lemma attach_listeners_style e st :
  style (menu (attach_listeners options e st)) = style (menu st).
Proof.
  unfold attach_listeners.
  destruct (handleMenuClick options); simpl;
    apply removeMenuEventListener_style.
Qed.

Lemma attach_listeners_innerHTML e st :
  innerHTML (menu (attach_listeners options e st)) = innerHTML (menu st).
Proof.
  unfold attach_listeners.
  destruct (handleMenuClick options); simpl;
    apply removeMenuEventListener_innerHTML.
Qed.

Lemma attach_listeners_parentNode e st :
  parentNode (menu (attach_listeners options e st)) = parentNode (menu st).
Proof.
  unfold attach_listeners.
  destruct (handleMenuClick options); simpl;
    apply removeMenuEventListener_parentNode.
Qed.

Lemma attach_listeners_fields e st :
  currentTarget (attach_listeners options e st) = currentTarget st
  /\ asyncMenu (attach_listeners options e st) = asyncMenu st
  /\ suspended (attach_listeners options e st) = suspended st
  /\ calls (attach_listeners options e st) = calls st.
Proof.
  unfold attach_listeners.
  destruct (removeMenuEventListener_fields st) as (_ & Hc & Ha & Hs & _ & Hl).
  destruct (handleMenuClick options); simpl; auto.
Qed.

Lemma onMenuHide_currentTarget st :
  currentTarget (onMenuHide st) = currentTarget st.
Proof. apply onMenuHide_fields. Qed.

Lemma onMenuHide_asyncMenu st : asyncMenu (onMenuHide st) = asyncMenu st.
Proof. apply onMenuHide_fields. Qed.

Lemma onMenuHide_suspended st : suspended (onMenuHide st) = suspended st.
Proof. apply onMenuHide_fields. Qed.

Lemma onMenuHide_calls st : calls (onMenuHide st) = calls st.
Proof. apply onMenuHide_fields. Qed.

Lemma attach_listeners_calls e st :
  calls (attach_listeners options e st) = calls st.
Proof. apply attach_listeners_fields. Qed.

Lemma attach_listeners_suspended e st :
  suspended (attach_listeners options e st) = suspended st.
Proof. apply attach_listeners_fields. Qed.

End Frame.

Create Rewrite HintDb menu_frame.

#[export] Hint Rewrite
  removeMenuEventListener_style removeMenuEventListener_innerHTML
  removeMenuEventListener_parentNode
  onMenuHide_style onMenuHide_innerHTML onMenuHide_parentNode
  attach_listeners_style attach_listeners_innerHTML
  attach_listeners_parentNode
  onMenuHide_currentTarget onMenuHide_asyncMenu onMenuHide_suspended
  onMenuHide_calls attach_listeners_calls attach_listeners_suspended
  : menu_frame.

(** ** The phases of the show handler *)

Section Phases.

Variable options : MenuConfig.

Lemma place_overlay_menu e lay st :
  menu (place_overlay options e lay st)
  = modifyCSS_place (snd (overlay_position options e lay))
      (fst (overlay_position options e lay)) visible (menu st).
Proof.
  unfold place_overlay.
  destruct (overlay_position options e lay); reflexivity.
Qed.

Lemma place_overlay_fields e lay st :
  handleMenuClickWrapper (place_overlay options e lay st)
  = handleMenuClickWrapper st
  /\ handler (place_overlay options e lay st) = handler st
  /\ currentTarget (place_overlay options e lay st) = currentTarget st
  /\ asyncMenu (place_overlay options e lay st) = asyncMenu st
  /\ bodyListeners (place_overlay options e lay st) = bodyListeners st
  /\ suspended (place_overlay options e lay st) = suspended st
  /\ nextId (place_overlay options e lay st) = nextId st
  /\ calls (place_overlay options e lay st) = calls st.
Proof.
  unfold place_overlay.
  destruct (overlay_position options e lay); simpl; repeat split.
Qed.

(** The staleness check passes whenever the cache applies. *)
Lemma cache_applies_not_stale e st :
  loose_neq (itemId e) (currentTarget st)
  || negb (truthy_content (asyncMenu st)) = false ->
  loose_neq (itemId e) (currentTarget st) = false
  /\ exists c, asyncMenu st = Some c.
Proof.
  intros H. apply orb_false_elim in H as [Hn Ht]. split; [exact Hn|].
  destruct (asyncMenu st) as [c|]; [eauto | discriminate Ht].
Qed.

Lemma inject_content_style e mc st :
  style (menu (snd (inject_content options e mc st))) = style (menu st).
Proof.
  unfold inject_content, onMenuShow_rest.
  destruct mc; cbn [snd]; autorewrite with menu_frame; try reflexivity.
  cbn [currentTarget asyncMenu with_menu].
  destruct (loose_neq (itemId e) (currentTarget st)
            || negb (truthy_content (asyncMenu st))) eqn:Hc.
  - reflexivity.
  - apply cache_applies_not_stale in Hc as [Hn [c Hc]].
    rewrite Hn, Hc. cbn [snd]. autorewrite with menu_frame. reflexivity.
Qed.

Lemma inject_content_parentNode e mc st :
  parentNode (menu (snd (inject_content options e mc st)))
  = parentNode (menu st).
Proof.
  unfold inject_content, onMenuShow_rest.
  destruct mc; cbn [snd]; autorewrite with menu_frame; try reflexivity.
  cbn [currentTarget asyncMenu with_menu].
  destruct (loose_neq (itemId e) (currentTarget st)
            || negb (truthy_content (asyncMenu st))) eqn:Hc.
  - reflexivity.
  - apply cache_applies_not_stale in Hc as [Hn [c Hc]].
    rewrite Hn, Hc. cbn [snd]. autorewrite with menu_frame. reflexivity.
Qed.

Lemma inject_content_innerHTML e mc st :
  innerHTML (menu (snd (inject_content options e mc st)))
  = written_markup options mc e st.
Proof.
  unfold inject_content, onMenuShow_rest, written_markup.
  destruct mc; cbn [snd]; autorewrite with menu_frame; try reflexivity.
  cbn [currentTarget asyncMenu with_menu].
  destruct (loose_neq (itemId e) (currentTarget st)
            || negb (truthy_content (asyncMenu st))) eqn:Hc.
  - reflexivity.
  - apply cache_applies_not_stale in Hc as [Hn [c Hc]].
    rewrite Hn, Hc. cbn [snd]. autorewrite with menu_frame. reflexivity.
Qed.

Lemma show_prelude_fields e st :
  currentTarget (show_prelude e st) = currentTarget st
  /\ asyncMenu (show_prelude e st) = asyncMenu st
  /\ suspended (show_prelude e st) = suspended st
  /\ innerHTML (menu (show_prelude e st)) = innerHTML (menu st)
  /\ parentNode (menu (show_prelude e st)) = parentNode (menu st)
  /\ position (style (menu (show_prelude e st))) = position (style (menu st))
  /\ visibility (style (menu (show_prelude e st))) = hidden.
Proof.
  unfold show_prelude. autorewrite with menu_frame.
  destruct (preventDefault e); simpl; repeat split.
Qed.

Lemma onMenuShow_unfold e lay st :
  onMenuShow options e lay st
  = if negb (itemType_allowed options e)
    then (Returned, onMenuHide (show_prelude e st))
    else if negb (shouldBegin options e)
         then (Returned, log (CallShouldBegin e) (show_prelude e st))
         else inject_content options e (getContent options e)
                (place_overlay options e lay
                   (log (CallGetContent e)
                      (log (CallShouldBegin e) (show_prelude e st)))).
Proof. reflexivity. Qed.

Lemma written_markup_ext mc e st st' :
  currentTarget st' = currentTarget st ->
  asyncMenu st' = asyncMenu st ->
  written_markup options mc e st' = written_markup options mc e st.
Proof. intros H1 H2. unfold written_markup. rewrite H1, H2. reflexivity. Qed.

(** A show stopped by a filter leaves the overlay hidden. *)
Lemma onMenuShow_hidden e lay st :
  itemType_allowed options e && shouldBegin options e = false ->
  visibility (style (menu (snd (onMenuShow options e lay st)))) = hidden.
Proof.
  intros H. rewrite onMenuShow_unfold.
  destruct (itemType_allowed options e); cbn [negb snd].
  - cbn in H. rewrite H. cbn [negb snd menu log].
    apply show_prelude_fields.
  - rewrite onMenuHide_style. reflexivity.
Qed.

(** A show that passes both filters leaves the overlay visible at the
    computed position, with [first_markup] as its content. *)
Lemma onMenuShow_shown e lay st :
  itemType_allowed options e = true ->
  shouldBegin options e = true ->
  let st' := snd (onMenuShow options e lay st) in
  style (menu st')
  = {| top := snd (overlay_position options e lay);
       left := Some (fst (overlay_position options e lay));
       position := position (style (menu st));
       visibility := visible |}
  /\ innerHTML (menu st') = first_markup options e st.
Proof.
  intros Ha Hb st'. subst st'. rewrite onMenuShow_unfold, Ha, Hb.
  cbn [negb]. rewrite inject_content_style, inject_content_innerHTML.
  rewrite place_overlay_menu.
  destruct (show_prelude_fields e st) as (Hc & Hm & _ & _ & _ & Hp & _).
  split.
  - cbn. rewrite Hp. reflexivity.
  - unfold first_markup. apply written_markup_ext.
    + destruct (place_overlay_fields e lay
                  (log (CallGetContent e)
                     (log (CallShouldBegin e) (show_prelude e st))))
        as (_ & _ & H & _). rewrite H. exact Hc.
    + destruct (place_overlay_fields e lay
                  (log (CallGetContent e)
                     (log (CallShouldBegin e) (show_prelude e st))))
        as (_ & _ & _ & H & _). rewrite H. exact Hm.
Qed.

End Phases.

(** ** The listener discipline *)

Section Listeners.

Variable options : MenuConfig.

Lemma removeMenuEventListener_clears st :
  listeners_tracked st ->
  no_listeners (removeMenuEventListener st)
  /\ handleMenuClickWrapper (removeMenuEventListener st) = None.
Proof.
  unfold listeners_tracked, no_listeners, removeMenuEventListener.
  destruct st as [m w h ct am bl su n cl]; simpl.
  intros [[[Hm Hw]|[c [Hm Hw]]] [Hb|[d [Hb Hh]]]]; subst; simpl;
    try (destruct h; simpl); unfold body_removeEventListener;
    rewrite ?Hm; simpl; rewrite ?Nat.eqb_refl; simpl; auto.
Qed.

Lemma no_listeners_tracked st :
  no_listeners st -> handleMenuClickWrapper st = None -> listeners_tracked st.
Proof. intros [Hm Hb] Hw. split; left; auto. Qed.

Lemma onMenuHide_clears st :
  listeners_tracked st ->
  no_listeners (onMenuHide st) /\ handleMenuClickWrapper (onMenuHide st) = None.
Proof.
  intros H. unfold onMenuHide. apply removeMenuEventListener_clears.
  exact H.
Qed.

(** After [attach_listeners] exactly one outside-click handler is
    registered, and it is the one [this.handler] refers to. *)
Lemma attach_listeners_tracked e st :
  listeners_tracked st ->
  listeners_tracked (attach_listeners options e st)
  /\ List.length (bodyListeners (attach_listeners options e st)) = 1%nat.
Proof.
  intros H. destruct (removeMenuEventListener_clears st H) as [[Hm Hb] Hw].
  unfold attach_listeners, listeners_tracked.
  destruct (handleMenuClick options); simpl; rewrite ?Hm, ?Hb; simpl.
  - split; [split|reflexivity]; right; eexists; split; reflexivity.
  - split; [split|reflexivity].
    + left. auto.
    + right. eexists. split; reflexivity.
Qed.

Lemma onMenuShow_rest_tracked e st :
  listeners_tracked st ->
  listeners_tracked (snd (onMenuShow_rest options e st)).
Proof.
  intros H. unfold onMenuShow_rest.
  destruct (loose_neq (itemId e) (currentTarget st)); [exact H|].
  destruct (asyncMenu st); [|exact H].
  cbn [snd]. apply attach_listeners_tracked. exact H.
Qed.

(** What [inject_content] leaves registered on the body when it starts
    from a state without listeners: one handler if it ran to the end,
    none if it suspended. *)
Lemma inject_content_listeners e mc st :
  listeners_tracked st ->
  bodyListeners st = [] ->
  listeners_tracked (snd (inject_content options e mc st))
  /\ List.length (bodyListeners (snd (inject_content options e mc st)))
     = match mc with
       | MPromise => if cache_applies e st then 1%nat else 0%nat
       | _ => 1%nat
       end.
Proof.
  intros H Hb. unfold inject_content, cache_applies.
  destruct mc; cbn [snd]; try (apply attach_listeners_tracked; exact H).
  cbn [currentTarget asyncMenu with_menu].
  destruct (loose_neq (itemId e) (currentTarget st)
            || negb (truthy_content (asyncMenu st))) eqn:Hc; cbn [negb snd].
  - split; [exact H | cbn; rewrite Hb; reflexivity].
  - apply cache_applies_not_stale in Hc as [Hn [c Hc]].
    unfold onMenuShow_rest. cbn [currentTarget asyncMenu with_menu].
    rewrite Hn, Hc. cbn [snd]. apply attach_listeners_tracked. exact H.
Qed.

Lemma show_prelude_clears e st :
  listeners_tracked st ->
  no_listeners (show_prelude e st)
  /\ handleMenuClickWrapper (show_prelude e st) = None.
Proof.
  intros H. unfold show_prelude. apply onMenuHide_clears.
  destruct (preventDefault e); exact H.
Qed.

(** The number of outside-click handlers after a show, from any state
    that respects the discipline. *)
Lemma onMenuShow_listeners e lay st :
  listeners_tracked st ->
  listeners_tracked (snd (onMenuShow options e lay st))
  /\ List.length (bodyListeners (snd (onMenuShow options e lay st)))
     = if show_completes options e st then 1%nat else 0%nat.
Proof.
  intros H. rewrite onMenuShow_unfold. unfold show_completes.
  destruct (show_prelude_clears e st H) as [[Hm Hb] Hw].
  destruct (itemType_allowed options e); cbn [negb andb].
  - destruct (shouldBegin options e); cbn [negb andb snd].
    + set (st1 := place_overlay options e lay _).
      assert (Ht : listeners_tracked st1 /\ bodyListeners st1 = []).
      { subst st1. unfold listeners_tracked.
        rewrite place_overlay_menu.
        destruct (place_overlay_fields options e lay
          (log (CallGetContent e)
             (log (CallShouldBegin e) (show_prelude e st))))
          as (Ew & Eh & _ & _ & Eb & _).
        rewrite Ew, Eb. cbn. rewrite Hm, Hb, Hw. auto. }
      destruct Ht as [Ht Hb1].
      destruct (inject_content_listeners e (getContent options e) st1 Ht Hb1)
        as [Hi Hl].
      split; [exact Hi|]. rewrite Hl.
      assert (Hca : cache_applies e st1 = cache_applies e st).
      { subst st1. unfold cache_applies.
        destruct (place_overlay_fields options e lay
          (log (CallGetContent e)
             (log (CallShouldBegin e) (show_prelude e st))))
          as (_ & _ & Ec & Ea & _).
        rewrite Ec, Ea. cbn.
        destruct (show_prelude_fields e st) as (Ec' & Ea' & _).
        rewrite Ec', Ea'. reflexivity. }
      rewrite Hca. destruct (getContent options e); reflexivity.
    + split; [|cbn; rewrite Hb; reflexivity].
      apply no_listeners_tracked; [split; assumption | exact Hw].
  - cbn [snd].
    destruct (onMenuHide_clears (show_prelude e st)) as [[Hm' Hb'] Hw'].
    { apply no_listeners_tracked; [split; assumption | exact Hw]. }
    split; [|rewrite Hb'; reflexivity].
    apply no_listeners_tracked; [split; assumption | exact Hw'].
Qed.

End Listeners.

(** ** The calls made by the show handler *)

Section Calls.

Variable options : MenuConfig.

Lemma onMenuShow_rest_calls e st :
  calls (snd (onMenuShow_rest options e st)) = calls st.
Proof.
  unfold onMenuShow_rest.
  destruct (loose_neq (itemId e) (currentTarget st)); [reflexivity|].
  destruct (asyncMenu st); [|reflexivity].
  cbn [snd]. rewrite attach_listeners_calls. reflexivity.
Qed.

Lemma inject_content_calls e mc st :
  calls (snd (inject_content options e mc st))
  = calls st
    ++ match mc with
       | MPromise => if cache_applies e st then [] else [CallGetContent e]
       | _ => []
       end.
Proof.
  unfold inject_content, cache_applies.
  destruct mc; cbn [snd]; rewrite ?attach_listeners_calls;
    cbn [calls with_menu]; rewrite ?app_nil_r; try reflexivity.
  cbn [currentTarget asyncMenu with_menu].
  destruct (loose_neq (itemId e) (currentTarget st)
            || negb (truthy_content (asyncMenu st))); cbn [negb snd].
  - reflexivity.
  - rewrite onMenuShow_rest_calls. cbn. rewrite app_nil_r. reflexivity.
Qed.

Lemma show_prelude_calls e st :
  calls (show_prelude e st)
  = calls st ++ (if preventDefault e then [CallPreventDefault e] else []).
Proof.
  unfold show_prelude. rewrite onMenuHide_calls.
  destruct (preventDefault e); cbn; rewrite ?app_nil_r; reflexivity.
Qed.

Lemma place_overlay_cache e e' lay st :
  cache_applies e (place_overlay options e' lay st) = cache_applies e st.
Proof.
  unfold cache_applies.
  destruct (place_overlay_fields options e' lay st) as (_ & _ & Ec & Ea & _).
  rewrite Ec, Ea. reflexivity.
Qed.

Lemma show_prelude_cache e e' st :
  cache_applies e (show_prelude e' st) = cache_applies e st.
Proof.
  unfold cache_applies.
  destruct (show_prelude_fields e' st) as (Ec & Ea & _).
  rewrite Ec, Ea. reflexivity.
Qed.

(** The calls of one show, in order. *)
Lemma onMenuShow_calls e lay st :
  calls (snd (onMenuShow options e lay st))
  = calls st ++ show_calls options e st.
Proof.
  rewrite onMenuShow_unfold. unfold show_calls.
  destruct (itemType_allowed options e); cbn [negb].
  - destruct (shouldBegin options e); cbn [negb snd].
    + rewrite inject_content_calls, place_overlay_cache.
      destruct (place_overlay_fields options e lay
          (log (CallGetContent e)
             (log (CallShouldBegin e) (show_prelude e st))))
        as (_ & _ & _ & _ & _ & _ & _ & El).
      rewrite El. cbn [calls log]. rewrite show_prelude_calls.
      assert (Hc : cache_applies e
                     (log (CallGetContent e)
                        (log (CallShouldBegin e) (show_prelude e st)))
                   = cache_applies e st)
        by apply (show_prelude_cache e e st).
      rewrite Hc. rewrite <- !app_assoc. reflexivity.
    + cbn [calls log]. rewrite show_prelude_calls.
      rewrite <- !app_assoc. reflexivity.
  - cbn [snd]. rewrite onMenuHide_calls, show_prelude_calls, app_nil_r.
    reflexivity.
Qed.

Lemma show_calls_no_onHide e st : ~ In CallOnHide (show_calls options e st).
Proof.
  unfold show_calls. intros H. apply in_app_or in H as [H|H].
  - destruct (preventDefault e); simpl in H; intuition discriminate.
  - destruct (itemType_allowed options e); [|exact H].
    destruct H as [H|H]; [discriminate|].
    destruct (shouldBegin options e); [|exact H].
    destruct H as [H|H]; [discriminate|].
    destruct (getContent options e); try exact H.
    destruct (cache_applies e st); simpl in H; intuition discriminate.
Qed.

End Calls.

(** ** The life-cycle invariant *)

Section LifeCycle.

Variable options : MenuConfig.
Variable graph_container : ElemId.
Variable getElementById : string -> option ElemId.


Lemma init_invariant st :
  init options graph_container getElementById = Some st ->
  lifecycle_invariant options graph_container getElementById st.
Proof.
  unfold init, lifecycle_invariant, listeners_tracked.
  destruct (resolve_container options graph_container getElementById)
    as [c|] eqn:Hr; [|discriminate].
  intros H. injection H as <-.
  split; [split; left; split; reflexivity|].
  split; [intros []|]. right. reflexivity.
Qed.

Lemma run_handler_frame h st :
  calls (run_handler h st) = calls st
  /\ parentNode (menu (run_handler h st)) = parentNode (menu st)
  /\ (listeners_tracked st -> listeners_tracked (run_handler h st)).
Proof.
  unfold run_handler.
  destruct (find (fun c => Nat.eqb (hid c) h) (bodyListeners st))
    as [c|] eqn:Hf; [|auto].
  destruct (triggeredByFirstClick c).
  - split; [reflexivity|]. split; [reflexivity|].
    intros [Hm [Hb|[d [Hb Hh]]]]; (split; [exact Hm|]);
      cbn [bodyListeners with_bodyListeners handler].
    + left. rewrite Hb. reflexivity.
    + right. rewrite Hb. cbn [map].
      destruct (Nat.eqb_spec (hid d) h) as [E|E];
        eexists; (split; [reflexivity|]); cbn [hid]; congruence.
  - rewrite onMenuHide_calls, onMenuHide_parentNode.
    split; [reflexivity|]. split; [reflexivity|]. intros H.
    destruct (onMenuHide_clears st H) as [Hn Hw].
    apply no_listeners_tracked; assumption.
Qed.

Lemma body_click_frame st :
  calls (body_click st) = calls st
  /\ parentNode (menu (body_click st)) = parentNode (menu st)
  /\ (listeners_tracked st -> listeners_tracked (body_click st)).
Proof.
  unfold body_click. generalize (map hid (bodyListeners st)) as hs.
  intros hs. revert st. induction hs as [|h hs IH]; intros st; cbn.
  - auto.
  - destruct (run_handler_frame h st) as (Hc & Hp & Ht).
    destruct (IH (run_handler h st)) as (Hc' & Hp' & Ht').
    rewrite Hc', Hp', Hc, Hp. auto.
Qed.

Lemma overlay_click_frame target st :
  menu (overlay_click target st) = menu st
  /\ handleMenuClickWrapper (overlay_click target st)
     = handleMenuClickWrapper st
  /\ handler (overlay_click target st) = handler st
  /\ bodyListeners (overlay_click target st) = bodyListeners st
  /\ calls (overlay_click target st)
     = calls st
       ++ map (fun c => CallHandleMenuClick target (captured_itemId c))
            (clickListeners (menu st)).
Proof.
  unfold overlay_click. generalize (clickListeners (menu st)) as l.
  intros l. revert st. induction l as [|c l IH]; intros st; cbn.
  - rewrite app_nil_r. auto.
  - destruct (IH (log (CallHandleMenuClick target (captured_itemId c)) st))
      as (Hm & Hw & Hh & Hb & Hc).
    rewrite Hm, Hw, Hh, Hb, Hc. cbn. rewrite <- app_assoc. auto.
Qed.

Lemma onMenuShow_parentNode e lay st :
  parentNode (menu (snd (onMenuShow options e lay st)))
  = parentNode (menu st).
Proof.
  destruct (show_prelude_fields e st) as (_ & _ & _ & _ & Hp & _).
  rewrite onMenuShow_unfold.
  destruct (itemType_allowed options e); cbn [negb].
  - destruct (shouldBegin options e); cbn [negb snd].
    + rewrite inject_content_parentNode, place_overlay_menu. exact Hp.
    + exact Hp.
  - cbn [snd]. rewrite onMenuHide_parentNode. exact Hp.
Qed.

Lemma onMenuShow_resume_frame e v st :
  calls (snd (onMenuShow_resume options e v st)) = calls st
  /\ parentNode (menu (snd (onMenuShow_resume options e v st)))
     = parentNode (menu st)
  /\ (listeners_tracked st ->
      listeners_tracked (snd (onMenuShow_resume options e v st))).
Proof.
  unfold onMenuShow_resume. split; [|split].
  - rewrite onMenuShow_rest_calls. reflexivity.
  - unfold onMenuShow_rest. cbn [currentTarget asyncMenu with_asyncMenu].
    destruct (loose_neq _ _); cbn [snd]; [reflexivity|].
    autorewrite with menu_frame. reflexivity.
  - intros H. apply onMenuShow_rest_tracked. exact H.
Qed.

Lemma removeMenuEventListener_tracked st :
  listeners_tracked st -> listeners_tracked (removeMenuEventListener st).
Proof.
  intros H. destruct (removeMenuEventListener_clears st H).
  apply no_listeners_tracked; assumption.
Qed.

Lemma destroy_frame st :
  calls (snd (destroy options graph_container getElementById st)) = calls st
  /\ (listeners_tracked st ->
      no_listeners (snd (destroy options graph_container getElementById st))
      /\ handleMenuClickWrapper
           (snd (destroy options graph_container getElementById st)) = None)
  /\ (parentNode
        (menu (snd (destroy options graph_container getElementById st)))
      = None
      \/ parentNode
           (menu (snd (destroy options graph_container getElementById st)))
         = parentNode (menu st)).
Proof.
  unfold destroy.
  destruct (removeMenuEventListener_fields st) as (_ & _ & _ & _ & _ & Hc).
  pose proof (removeMenuEventListener_parentNode st) as Hp.
  pose proof (removeMenuEventListener_clears st) as Hl.
  destruct (resolve_container options graph_container getElementById);
    cbn [snd].
  - destruct (parentNode (menu (removeMenuEventListener st))) as [p|] eqn:E.
    + destruct (Nat.eqb p e); cbn [snd]; cbn; rewrite ?E; auto.
    + cbn [snd]. rewrite E. auto.
  - auto.
Qed.

Lemma step_invariant a st : 
  lifecycle_invariant options graph_container getElementById st ->
  lifecycle_invariant options graph_container getElementById
    (step options graph_container getElementById a st).
Proof.
  intros (Ht & Hc & Hp). unfold lifecycle_invariant.
  destruct a as [e lay|f v|f| |target|]; cbn [step].
  - rewrite onMenuShow_calls, onMenuShow_parentNode.
    split; [apply onMenuShow_listeners; exact Ht|]. split; [|exact Hp].
    intros H. apply in_app_or in H as [H|H]; [auto|].
    exact (show_calls_no_onHide options e st H).
  - destruct (frame_of f st) as [e|]; [|auto].
    destruct (onMenuShow_resume_frame e v (drop_frame f st))
      as (Ec & Ep & Et).
    rewrite Ec, Ep. auto.
  - auto.
  - destruct (body_click_frame st) as (Ec & Ep & Et).
    rewrite Ec, Ep. auto.
  - destruct (overlay_click_frame target st) as (Em & Ew & Eh & Eb & Ec).
    unfold listeners_tracked. rewrite Em, Ew, Eh, Eb, Ec.
    split; [exact Ht|]. split; [|exact Hp].
    intros H. apply in_app_or in H as [H|H]; [auto|].
    apply in_map_iff in H as [c [H _]]. discriminate H.
  - destruct (destroy_frame st) as (Ec & Et & Ep).
    rewrite Ec. destruct (Et Ht) as [Hn Hw].
    split; [apply no_listeners_tracked; assumption|]. split; [exact Hc|].
    destruct Ep as [Ep|Ep]; rewrite Ep; auto.
Qed.

Lemma run_cons a acts st :
  run options graph_container getElementById (a :: acts) st
  = run options graph_container getElementById acts
      (step options graph_container getElementById a st).
Proof. reflexivity. Qed.

Lemma run_invariant acts st :
  lifecycle_invariant options graph_container getElementById st ->
  lifecycle_invariant options graph_container getElementById
    (run options graph_container getElementById acts st).
Proof.
  revert st. induction acts as [|a acts IH]; intros st H.
  - exact H.
  - rewrite run_cons. apply IH, step_invariant, H.
Qed.

(** Until [destroy] is called the overlay stays where [init] put it. *)
Lemma step_parentNode a st :
  a <> Destroy ->
  parentNode (menu (step options graph_container getElementById a st))
  = parentNode (menu st).
Proof.
  intros Ha. destruct a as [e lay|f v|f| |target|]; cbn [step].
  - apply onMenuShow_parentNode.
  - destruct (frame_of f st) as [e|]; [|reflexivity].
    destruct (onMenuShow_resume_frame e v (drop_frame f st)) as (_ & Ep & _).
    rewrite Ep. reflexivity.
  - reflexivity.
  - apply body_click_frame.
  - destruct (overlay_click_frame target st) as (Em & _). rewrite Em.
    reflexivity.
  - contradiction.
Qed.

Lemma run_parentNode acts st :
  ~ In Destroy acts ->
  parentNode (menu (run options graph_container getElementById acts st))
  = parentNode (menu st).
Proof.
  revert st. induction acts as [|a acts IH]; intros st H.
  - reflexivity.
  - rewrite run_cons. cbn in H. rewrite IH by tauto.
    apply step_parentNode. intros ->. tauto.
Qed.

End LifeCycle.

(** ** How a show ends *)

Section Completion.

Variable options : MenuConfig.

Lemma inject_content_completion e mc st :
  fst (inject_content options e mc st)
  = match mc with
    | MPromise => if cache_applies e st then Returned else Awaiting
    | _ => Returned
    end
  /\ suspended (snd (inject_content options e mc st))
     = suspended st
       ++ match mc with
          | MPromise => if cache_applies e st then [] else [(nextId st, e)]
          | _ => []
          end.
Proof.
  unfold inject_content, cache_applies.
  destruct mc; cbn [fst snd]; rewrite ?attach_listeners_suspended;
    cbn [suspended with_menu]; rewrite ?app_nil_r; auto.
  cbn [currentTarget asyncMenu with_menu].
  destruct (loose_neq (itemId e) (currentTarget st)
            || negb (truthy_content (asyncMenu st))) eqn:Hc; cbn [negb].
  - split; reflexivity.
  - apply cache_applies_not_stale in Hc as [Hn [c Hc]].
    unfold onMenuShow_rest. cbn [currentTarget asyncMenu with_menu].
    rewrite Hn, Hc. cbn [fst snd].
    rewrite attach_listeners_suspended, app_nil_r. split; reflexivity.
Qed.

(** [onMenuShow] never throws: it returns, or it is suspended exactly
    when [show_suspends] says so. *)
Lemma onMenuShow_completion e lay st :
  fst (onMenuShow options e lay st)
  = if show_suspends options e st then Awaiting else Returned.
Proof.
  rewrite onMenuShow_unfold. unfold show_suspends.
  destruct (itemType_allowed options e); cbn [negb andb fst]; [|reflexivity].
  destruct (shouldBegin options e); cbn [negb andb fst]; [|reflexivity].
  destruct (inject_content_completion e (getContent options e)
              (place_overlay options e lay
                 (log (CallGetContent e)
                    (log (CallShouldBegin e) (show_prelude e st)))))
    as [Hf _].
  rewrite Hf, place_overlay_cache.
  assert (Hc : cache_applies e
                 (log (CallGetContent e)
                    (log (CallShouldBegin e) (show_prelude e st)))
               = cache_applies e st)
    by apply (show_prelude_cache e e st).
  rewrite Hc.
  destruct (getContent options e); try reflexivity.
  destruct (cache_applies e st); reflexivity.
Qed.

Lemma show_suspends_not_completes e st :
  show_suspends options e st = true -> show_completes options e st = false.
Proof.
  unfold show_suspends, show_completes.
  destruct (itemType_allowed options e && shouldBegin options e);
    [|discriminate].
  destruct (getContent options e); try discriminate.
  cbn. destruct (cache_applies e st); [discriminate | reflexivity].
Qed.

Lemma show_suspends_filters e st :
  show_suspends options e st = true ->
  itemType_allowed options e = true
  /\ shouldBegin options e = true
  /\ getContent options e = MPromise
  /\ cache_applies e st = false.
Proof.
  unfold show_suspends.
  destruct (itemType_allowed options e); [|discriminate].
  destruct (shouldBegin options e); [|discriminate].
  destruct (getContent options e); try discriminate.
  destruct (cache_applies e st); [discriminate | auto].
Qed.

(** A show that is suspended at the [await] has no listener attached:
    the previous ones were detached at line 142 and the new ones are
    attached after the [await]. *)
Lemma onMenuShow_suspended_no_listeners e lay st :
  listeners_tracked st ->
  show_suspends options e st = true ->
  no_listeners (snd (onMenuShow options e lay st)).
Proof.
  intros Ht Hs.
  destruct (show_suspends_filters e st Hs) as (Ha & Hb & Hg & Hc).
  destruct (show_prelude_clears e st Ht) as [[Hm Hbl] _].
  rewrite onMenuShow_unfold, Ha, Hb, Hg. cbn [negb].
  set (st1 := place_overlay options e lay _).
  assert (Hc1 : cache_applies e st1 = false).
  { subst st1. rewrite place_overlay_cache.
    change (cache_applies e (show_prelude e st) = false).
    rewrite show_prelude_cache. exact Hc. }
  assert (Hn1 : no_listeners st1).
  { subst st1. unfold no_listeners. rewrite place_overlay_menu.
    destruct (place_overlay_fields options e lay
                (log (CallGetContent e)
                   (log (CallShouldBegin e) (show_prelude e st))))
      as (_ & _ & _ & _ & Eb & _).
    rewrite Eb. cbn. auto. }
  unfold inject_content. cbn [currentTarget asyncMenu with_menu].
  unfold cache_applies in Hc1. apply negb_false_iff in Hc1. rewrite Hc1.
  cbn. exact Hn1.
Qed.

(** A frame whose target is no longer the current one ends at the
    staleness check: only [asyncMenu] has been assigned. *)
Lemma onMenuShow_resume_stale e v st :
  loose_neq (itemId e) (currentTarget st) = true ->
  onMenuShow_resume options e v st = (Returned, with_asyncMenu (Some v) st).
Proof.
  intros H. unfold onMenuShow_resume, onMenuShow_rest.
  cbn [currentTarget with_asyncMenu]. rewrite H. reflexivity.
Qed.

Lemma indexOf_In arr s : not_found (indexOf arr s) = false <-> In s arr.
Proof.
  induction arr as [|t arr IH]; simpl.
  - split; [discriminate | tauto].
  - destruct (String.eqb_spec t s) as [->|Hne]; simpl.
    + split; auto.
    + destruct (indexOf arr s); simpl in *.
      * split; [intros _; right; apply IH; reflexivity | reflexivity].
      * split; [discriminate |].
        intros [Heq|Hin]; [contradiction | apply IH, Hin].
Qed.

Lemma itemType_allowed_typed e T :
  truthy (itemId e) = true ->
  itemType e = Some T -> truthy (itemType e) = true ->
  itemType_allowed options e = true <-> In T (itemTypes options).
Proof.
  intros Hi HT Ht. unfold itemType_allowed. rewrite Hi, Ht, HT. cbn.
  rewrite negb_true_iff. apply indexOf_In.
Qed.

Lemma itemType_allowed_canvas e :
  truthy (itemId e) = false ->
  itemType_allowed options e = true <-> In "canvas" (itemTypes options).
Proof.
  intros Hi. unfold itemType_allowed. rewrite Hi. cbn.
  rewrite negb_true_iff. apply indexOf_In.
Qed.

Lemma itemType_allowed_untyped e :
  truthy (itemId e) = true -> truthy (itemType e) = false ->
  itemType_allowed options e = true.
Proof.
  intros Hi Ht. unfold itemType_allowed. rewrite Hi, Ht. reflexivity.
Qed.

(** Display is decided by the two filters alone. *)
Lemma displayed_iff_filters e lay st :
  displayed_with (first_markup options e st)
    (snd (onMenuShow options e lay st))
  <-> itemType_allowed options e = true /\ shouldBegin options e = true.
Proof.
  split.
  - intros [Hv _].
    destruct (itemType_allowed options e && shouldBegin options e) eqn:Hf.
    + apply andb_true_iff in Hf. exact Hf.
    + rewrite (onMenuShow_hidden options e lay st Hf) in Hv. discriminate.
  - intros [Ha Hb].
    destruct (onMenuShow_shown options e lay st Ha Hb) as [Hs Hh].
    split; [rewrite Hs; reflexivity | exact Hh].
Qed.

End Completion.

(** * Properties of the widget *)

(** ** Display filters *)

(** C2.  For a trigger event that carries an item identifier and an item
    type [T] (both present in the sense of the handler's own tests, that
    is, truthy), the menu is displayed (the overlay is visible and holds
    the content written by this show) if and only if [T] is in the allowed
    item types and the display predicate returns [true] for the event. *)
Theorem typed_item_displayed_iff
    (options : MenuConfig) (e : IG6GraphEvent) (lay : Layout) (st : State)
    (T : string) :
  truthy (itemId e) = true ->
  itemType e = Some T ->
  truthy (itemType e) = true ->
  displayed_with (first_markup options e st)
    (snd (onMenuShow options e lay st))
  <-> In T (itemTypes options) /\ shouldBegin options e = true.
Proof.
  intros Hi HT Ht. rewrite displayed_iff_filters.
  rewrite (itemType_allowed_typed options e T Hi HT Ht). reflexivity.
Qed.

Lemma typed_item_displayed_iff_witness :
  displayed_with (first_markup getDefaultCfgs (node_event "n1")
                    (created getDefaultCfgs host_container))
    (snd (onMenuShow getDefaultCfgs (node_event "n1") sample_layout
            (created getDefaultCfgs host_container)))
  <-> In "node" (itemTypes getDefaultCfgs)
      /\ shouldBegin getDefaultCfgs (node_event "n1") = true.
Proof.
  apply (typed_item_displayed_iff getDefaultCfgs (node_event "n1")
           sample_layout (created getDefaultCfgs host_container) "node");
    reflexivity.
Defined.

(** C3, as stated: an event without item identifier is displayed if and
    only if ['canvas'] is an allowed item type.  It fails when the canvas
    is allowed and the display predicate refuses: the overlay stays
    hidden. *)
Lemma canvas_allowed_but_refused :
  truthy (itemId canvas_event) = false
  /\ ~ (displayed_with
          (first_markup refusing_options canvas_event
             (created refusing_options host_container))
          (snd (onMenuShow refusing_options canvas_event sample_layout
                  (created refusing_options host_container)))
        <-> In "canvas" (itemTypes refusing_options)).
Proof.
  split; [reflexivity|].
  intros [_ H]. destruct H as [Hv _]; [left; reflexivity|].
  vm_compute in Hv. discriminate Hv.
Qed.

(** C3, amended.  For a trigger event that carries no item identifier,
    the menu is displayed if and only if ['canvas'] is in the allowed item
    types and the display predicate returns [true] for the event. *)
Theorem canvas_displayed_iff
    (options : MenuConfig) (e : IG6GraphEvent) (lay : Layout) (st : State) :
  truthy (itemId e) = false ->
  displayed_with (first_markup options e st)
    (snd (onMenuShow options e lay st))
  <-> In "canvas" (itemTypes options) /\ shouldBegin options e = true.
Proof.
  intros Hi. rewrite displayed_iff_filters.
  rewrite (itemType_allowed_canvas options e Hi). reflexivity.
Qed.

Lemma canvas_displayed_iff_witness :
  displayed_with (first_markup refusing_options canvas_event
                    (created refusing_options host_container))
    (snd (onMenuShow refusing_options canvas_event sample_layout
            (created refusing_options host_container)))
  <-> In "canvas" (itemTypes refusing_options)
      /\ shouldBegin refusing_options canvas_event = true.
Proof.
  apply (canvas_displayed_iff refusing_options canvas_event sample_layout
           (created refusing_options host_container)).
  reflexivity.
Defined.

(** C8.  For a trigger event that carries an item identifier but no item
    type, the item-type filter lets the event through whatever the allowed
    item types are; only the display predicate decides whether the menu is
    displayed. *)
Theorem untyped_item_passes_filter
    (options : MenuConfig) (e : IG6GraphEvent) (lay : Layout) (st : State) :
  truthy (itemId e) = true ->
  truthy (itemType e) = false ->
  itemType_allowed options e = true
  /\ (displayed_with (first_markup options e st)
        (snd (onMenuShow options e lay st))
      <-> shouldBegin options e = true).
Proof.
  intros Hi Ht.
  pose proof (itemType_allowed_untyped options e Hi Ht) as Ha.
  split; [exact Ha|]. rewrite displayed_iff_filters, Ha. tauto.
Qed.

Lemma untyped_item_passes_filter_witness :
  itemType_allowed refusing_options (untyped_event "n1") = true
  /\ (displayed_with
        (first_markup refusing_options (untyped_event "n1")
           (created refusing_options host_container))
        (snd (onMenuShow refusing_options (untyped_event "n1") sample_layout
                (created refusing_options host_container)))
      <-> shouldBegin refusing_options (untyped_event "n1") = true).
Proof.
  apply (untyped_item_passes_filter refusing_options (untyped_event "n1")
           sample_layout (created refusing_options host_container));
    reflexivity.
Defined.

(** ** Position *)

(** C5.  For a show that passes the filters, with
    [x0 = viewport.x + containerLeft + offsetX] and
    [y0 = viewport.y + containerTop + offsetY - 55] (an unset offset counts
    as 0), the overlay is made visible with [left] equal to
    [x0 - (overlayWidth + containerLeft + offsetX)] when
    [x0 + overlayWidth] exceeds the canvas width and to [x0] otherwise, and
    with [top] equal to [y0 - (overlayHeight + containerTop + offsetY)]
    when [y0 + overlayHeight] exceeds the canvas height and to [y0]
    otherwise. *)
Theorem overlay_position_clamped
    (options : MenuConfig) (e : IG6GraphEvent) (lay : Layout) (st : State) :
  itemType_allowed options e = true ->
  shouldBegin options e = true ->
  let ox := or_zero (offsetX options) in
  let oy := or_zero (offsetY options) in
  let x0 := x (viewport e) + offsetLeft lay + ox in
  let y0 := y (viewport e) + offsetTop lay + oy - 55 in
  let s := style (menu (snd (onMenuShow options e lay st))) in
  visibility s = visible
  /\ (x0 + bbox_width lay > fst (size lay) ->
      left s = Some (x0 - (bbox_width lay + offsetLeft lay + ox)))
  /\ (x0 + bbox_width lay <= fst (size lay) -> left s = Some x0)
  /\ (y0 + bbox_height lay > snd (size lay) ->
      top s = y0 - (bbox_height lay + offsetTop lay + oy))
  /\ (y0 + bbox_height lay <= snd (size lay) -> top s = y0).
Proof.
  intros Ha Hb ox oy x0 y0 s.
  destruct (onMenuShow_shown options e lay st Ha Hb) as [Hs _].
  subst s. rewrite Hs. cbn [visibility left top].
  unfold overlay_position. cbn [fst snd]. fold ox oy. fold x0 y0.
  split; [reflexivity|].
  repeat split; intros H.
  - destruct (Z.gtb_spec (x0 + bbox_width lay) (fst (size lay)));
      [reflexivity | lia].
  - destruct (Z.gtb_spec (x0 + bbox_width lay) (fst (size lay)));
      [lia | reflexivity].
  - destruct (Z.gtb_spec (y0 + bbox_height lay) (snd (size lay)));
      [reflexivity | lia].
  - destruct (Z.gtb_spec (y0 + bbox_height lay) (snd (size lay)));
      [lia | reflexivity].
Qed.

Lemma overlay_position_clamped_witness :
  let s := style (menu (snd (onMenuShow getDefaultCfgs (node_event "n1")
                              sample_layout
                              (created getDefaultCfgs host_container)))) in
  visibility s = visible
  /\ (120 + 20 + 6 + 80 > 500 -> left s = Some (120 + 20 + 6 - (80 + 20 + 6)))
  /\ (120 + 20 + 6 + 80 <= 500 -> left s = Some (120 + 20 + 6))
  /\ (200 + 10 + 6 - 55 + 40 > 500 ->
      top s = 200 + 10 + 6 - 55 - (40 + 10 + 6))
  /\ (200 + 10 + 6 - 55 + 40 <= 500 -> top s = 200 + 10 + 6 - 55).
Proof.
  apply (overlay_position_clamped getDefaultCfgs (node_event "n1")
           sample_layout (created getDefaultCfgs host_container));
    reflexivity.
Defined.

(** Near the lower right corner both coordinates are shifted back:
    [470 + 20 + 6 = 496] and [496 + 80 > 500], so [left] is
    [496 - (80 + 20 + 6)]; [520 + 10 + 6 - 55 = 481] and [481 + 40 > 500],
    so [top] is [481 - (40 + 10 + 6)]. *)
Example overlay_position_at_corner :
  style (menu (snd (onMenuShow getDefaultCfgs corner_event sample_layout
                      (created getDefaultCfgs host_container))))
  = {| top := 425; left := Some 390;
       position := "absolute"; visibility := visible |}.
Proof. reflexivity. Qed.

(** ** Listeners *)

(** C6, as stated: after any two successive shows exactly one
    outside-click listener is attached.  It fails when the second show is
    stopped by the item-type filter: with the default configuration, a
    show on a node followed by a show on the canvas leaves none. *)
Lemma second_show_filtered_leaves_no_listener :
  option_map (fun st => List.length (bodyListeners st))
    (started getDefaultCfgs
       [Show (node_event "n1") sample_layout;
        Show canvas_event sample_layout])
  = Some 0%nat
  /\ option_map (fun st => List.length (bodyListeners st))
       (started getDefaultCfgs
          [Show (node_event "n1") sample_layout;
           Show canvas_event sample_layout])
     <> Some 1%nat.
Proof. split; [reflexivity | discriminate]. Qed.

(** C6, amended.  In every state of the life cycle at most one
    outside-click listener of the instance is attached to the document;
    after two successive shows exactly one is attached when the second
    show runs to its end in that turn (it passes the item-type filter and
    the predicate, and its content is a string, an element or a cached
    deferred result), and none is attached when the second show is stopped
    by a filter or is waiting for its content. *)
Theorem outside_click_listener_count
    (options : MenuConfig) (graph_container : ElemId)
    (getElementById : string -> option ElemId)
    (st0 : State) (acts : list Action) :
  init options graph_container getElementById = Some st0 ->
  let st := run options graph_container getElementById acts st0 in
  (List.length (bodyListeners st) <= 1)%nat
  /\ forall e1 lay1 e2 lay2,
       let st1 := snd (onMenuShow options e1 lay1 st) in
       let st2 := snd (onMenuShow options e2 lay2 st1) in
       List.length (bodyListeners st2)
       = if show_completes options e2 st1 then 1%nat else 0%nat.
Proof.
  intros Hinit st.
  assert (Hinv : listeners_tracked st).
  { apply (run_invariant options graph_container getElementById acts st0).
    apply init_invariant. exact Hinit. }
  split.
  - destruct Hinv as [_ [Hb|[c [Hb _]]]]; rewrite Hb; cbn; lia.
  - intros e1 lay1 e2 lay2 st1 st2.
    destruct (onMenuShow_listeners options e1 lay1 st Hinv) as [H1 _].
    apply (onMenuShow_listeners options e2 lay2 st1 H1).
Qed.

Lemma outside_click_listener_count_witness :
  let st := run getDefaultCfgs host_container no_elements
              [Show (node_event "n1") sample_layout; ClickBody]
              (created getDefaultCfgs host_container) in
  (List.length (bodyListeners st) <= 1)%nat
  /\ forall e1 lay1 e2 lay2,
       let st1 := snd (onMenuShow getDefaultCfgs e1 lay1 st) in
       let st2 := snd (onMenuShow getDefaultCfgs e2 lay2 st1) in
       List.length (bodyListeners st2)
       = if show_completes getDefaultCfgs e2 st1 then 1%nat else 0%nat.
Proof.
  apply (outside_click_listener_count getDefaultCfgs host_container
           no_elements (created getDefaultCfgs host_container)
           [Show (node_event "n1") sample_layout; ClickBody]).
  reflexivity.
Defined.

(** C7.  When [destroy()] returns, the overlay has been removed from its
    resolved container and neither the overlay click listener nor the
    outside-click listener remains attached; and the first [destroy()] of
    an initialised instance does return. *)
Theorem destroy_detaches
    (options : MenuConfig) (graph_container : ElemId)
    (getElementById : string -> option ElemId)
    (st0 : State) (acts : list Action) :
  init options graph_container getElementById = Some st0 ->
  let st := run options graph_container getElementById acts st0 in
  let r := destroy options graph_container getElementById st in
  (~ In Destroy acts -> fst r = Returned)
  /\ (fst r = Returned ->
      parentNode (menu (snd r)) = None
      /\ clickListeners (menu (snd r)) = []
      /\ bodyListeners (snd r) = []).
Proof.
  intros Hinit st r.
  assert (Hinv : listeners_tracked st).
  { apply (run_invariant options graph_container getElementById acts st0).
    apply init_invariant. exact Hinit. }
  destruct (removeMenuEventListener_clears st Hinv) as [[Hm Hb] _].
  pose proof (removeMenuEventListener_parentNode st) as Hp.
  unfold init in Hinit. subst r. unfold destroy.
  destruct (resolve_container options graph_container getElementById)
    as [c|] eqn:Hr; [|discriminate].
  injection Hinit as <-. split.
  - intros Hnd.
    pose proof (run_parentNode options graph_container getElementById acts
                  (created options c) Hnd) as Hrun.
    fold st in Hrun. rewrite Hp, Hrun. cbn [created menu parentNode set_parentNode].
    rewrite Nat.eqb_refl. reflexivity.
  - destruct (parentNode (menu (removeMenuEventListener st))) as [p|];
      [|discriminate].
    destruct (Nat.eqb p c); [|discriminate].
    intros _. cbn [snd menu with_menu parentNode set_parentNode
                   clickListeners bodyListeners].
    auto.
Qed.

Lemma destroy_detaches_witness :
  let st := run deferred_options host_container no_elements
              [Show (node_event "n1") sample_layout;
               Settle 0 (CString "<ul></ul>")]
              (created deferred_options host_container) in
  let r := destroy deferred_options host_container no_elements st in
  (~ In Destroy [Show (node_event "n1") sample_layout;
                 Settle 0 (CString "<ul></ul>")] ->
   fst r = Returned)
  /\ (fst r = Returned ->
      parentNode (menu (snd r)) = None
      /\ clickListeners (menu (snd r)) = []
      /\ bodyListeners (snd r) = []).
Proof.
  apply (destroy_detaches deferred_options host_container no_elements
           (created deferred_options host_container)
           [Show (node_event "n1") sample_layout;
            Settle 0 (CString "<ul></ul>")]).
  reflexivity.
Defined.

(** ** Callbacks *)

(** C9.  The configured [onHide] callback is never invoked: in no state of
    the life cycle does the call log hold a call to it, and neither the
    show handler, nor hide, nor destroy adds one. *)
Theorem onHide_never_called
    (options : MenuConfig) (graph_container : ElemId)
    (getElementById : string -> option ElemId)
    (st0 : State) (acts : list Action) :
  init options graph_container getElementById = Some st0 ->
  let st := run options graph_container getElementById acts st0 in
  ~ In CallOnHide (calls st)
  /\ (forall e lay, ~ In CallOnHide (calls (snd (onMenuShow options e lay st))))
  /\ ~ In CallOnHide (calls (onMenuHide st))
  /\ ~ In CallOnHide
         (calls (snd (destroy options graph_container getElementById st))).
Proof.
  intros Hinit st.
  assert (Hinv : lifecycle_invariant options graph_container getElementById st).
  { apply run_invariant, init_invariant. exact Hinit. }
  pose proof Hinv as (_ & Hc & _).
  split; [exact Hc|]. split; [|split].
  - intros e lay.
    apply (step_invariant options graph_container getElementById
             (Show e lay) st Hinv).
  - rewrite onMenuHide_calls. exact Hc.
  - apply (step_invariant options graph_container getElementById
             Destroy st Hinv).
Qed.

Lemma onHide_never_called_witness :
  let st := run getDefaultCfgs host_container no_elements
              [Show (node_event "n1") sample_layout; ClickBody; ClickBody]
              (created getDefaultCfgs host_container) in
  ~ In CallOnHide (calls st)
  /\ (forall e lay,
        ~ In CallOnHide (calls (snd (onMenuShow getDefaultCfgs e lay st))))
  /\ ~ In CallOnHide (calls (onMenuHide st))
  /\ ~ In CallOnHide
         (calls (snd (destroy getDefaultCfgs host_container no_elements st))).
Proof.
  apply (onHide_never_called getDefaultCfgs host_container no_elements
           (created getDefaultCfgs host_container)
           [Show (node_event "n1") sample_layout; ClickBody; ClickBody]).
  reflexivity.
Defined.

(** ** Deferred content *)

(** C4, as stated: a show on the same target as the preceding show, with
    a cached deferred result present, makes the provider be invoked only
    once across the two shows.  It fails: the first show invokes the
    provider twice (line 160 and line 199) and the second once more
    (line 160), while the cache test of the second show does hold. *)
Lemma cached_show_three_provider_calls :
  option_map (cache_applies (node_event "n1"))
    (started deferred_options
       [Show (node_event "n1") sample_layout;
        Settle 0 (CString "<ul>A</ul>")])
  = Some true
  /\ option_map provider_calls
       (started deferred_options
          [Show (node_event "n1") sample_layout;
           Settle 0 (CString "<ul>A</ul>");
           Show (node_event "n1") sample_layout])
     = Some 3%nat
  /\ option_map provider_calls
       (started deferred_options
          [Show (node_event "n1") sample_layout;
           Settle 0 (CString "<ul>A</ul>");
           Show (node_event "n1") sample_layout])
     <> Some 1%nat.
Proof. repeat split; try reflexivity. discriminate. Qed.

(** C4, amended.  A show that passes the filters, whose provider returns
    a deferred value for the target of the last fetch while a cached
    result is present, invokes the provider exactly once (the request of
    line 160 that every show makes), starts no new fetch, and returns in
    the same turn with the cached result as the content of the overlay. *)
Theorem cached_show_no_new_fetch
    (options : MenuConfig) (e : IG6GraphEvent) (lay : Layout) (st : State) :
  itemType_allowed options e = true ->
  shouldBegin options e = true ->
  getContent options e = MPromise ->
  loose_neq (itemId e) (currentTarget st) = false ->
  truthy_content (asyncMenu st) = true ->
  let r := onMenuShow options e lay st in
  fst r = Returned
  /\ provider_calls (snd r) = S (provider_calls st)
  /\ suspended (snd r) = suspended st
  /\ exists c, asyncMenu st = Some c
               /\ displayed_with (markup c) (snd r).
Proof.
  intros Ha Hb Hg Hn Ht r.
  assert (Hca : cache_applies e st = true).
  { unfold cache_applies. rewrite Hn, Ht. reflexivity. }
  subst r. split; [|split; [|split]].
  - rewrite onMenuShow_completion. unfold show_suspends.
    rewrite Ha, Hb, Hg, Hca. reflexivity.
  - unfold provider_calls. rewrite onMenuShow_calls.
    unfold show_calls. rewrite Ha, Hb, Hg, Hca.
    rewrite filter_app, length_app.
    destruct (preventDefault e); cbn; lia.
  - rewrite onMenuShow_unfold, Ha, Hb, Hg. cbn [negb].
    destruct (inject_content_completion options e MPromise
                (place_overlay options e lay
                   (log (CallGetContent e)
                      (log (CallShouldBegin e) (show_prelude e st)))))
      as [_ Hs].
    rewrite Hs, place_overlay_cache.
    assert (Hc : cache_applies e
                   (log (CallGetContent e)
                      (log (CallShouldBegin e) (show_prelude e st)))
                 = cache_applies e st)
      by apply (show_prelude_cache e e st).
    rewrite Hc, Hca, app_nil_r.
    destruct (place_overlay_fields options e lay
                (log (CallGetContent e)
                   (log (CallShouldBegin e) (show_prelude e st))))
      as (_ & _ & _ & _ & _ & Es & _).
    rewrite Es. cbn [suspended log]. apply show_prelude_fields.
  - destruct (asyncMenu st) as [c|] eqn:Hm; [|discriminate Ht].
    exists c. split; [reflexivity|].
    destruct (onMenuShow_shown options e lay st Ha Hb) as [Hs Hh].
    split; [rewrite Hs; reflexivity|].
    rewrite Hh. unfold first_markup, written_markup.
    rewrite Hg, Hn, Hm, Ht. reflexivity.
Qed.

Lemma cached_show_no_new_fetch_witness :
  let st := run deferred_options host_container no_elements
              [Show (node_event "n1") sample_layout;
               Settle 0 (CString "<ul>A</ul>")]
              (created deferred_options host_container) in
  let r := onMenuShow deferred_options (node_event "n1") sample_layout st in
  fst r = Returned
  /\ provider_calls (snd r) = S (provider_calls st)
  /\ suspended (snd r) = suspended st
  /\ exists c, asyncMenu st = Some c
               /\ displayed_with (markup c) (snd r).
Proof.
  apply (cached_show_no_new_fetch deferred_options (node_event "n1")
           sample_layout
           (run deferred_options host_container no_elements
              [Show (node_event "n1") sample_layout;
               Settle 0 (CString "<ul>A</ul>")]
              (created deferred_options host_container)));
    reflexivity.
Defined.

(** C10, as stated: a show whose deferred result is discarded as stale
    leaves the overlay visible with the loading placeholder.  It fails
    when another show has rendered its own content in between: after shows
    on [a] and on [b], the result for [b] arrives and is rendered, then the
    result for [a] arrives, is stale, and the overlay keeps the content of
    [b]. *)
Lemma stale_result_leaves_later_content :
  match started deferred_options
          [Show (node_event "a") sample_layout;
           Show (node_event "b") sample_layout;
           Settle 1 (CString "<ul>B</ul>")] with
  | Some st =>
      frame_of 0 st = Some (node_event "a")
      /\ loose_neq (itemId (node_event "a")) (currentTarget st) = true
      /\ innerHTML
           (menu (step deferred_options host_container no_elements
                    (Settle 0 (CString "<ul>A</ul>")) st))
         = "<ul>B</ul>"
      /\ ~ displayed_with (markup (loadingContent deferred_options))
             (step deferred_options host_container no_elements
                (Settle 0 (CString "<ul>A</ul>")) st)
  | None => False
  end.
Proof.
  cbv beta iota delta [started init resolve_container deferred_options
                       container].
  repeat split; try reflexivity.
  intros [_ H]. vm_compute in H. discriminate H.
Qed.

(** C10, amended.  A show that is suspended for its deferred content has
    by then made the overlay visible with the loading placeholder and has
    no listener attached; when its result later arrives stale, the frame
    ends without attaching any listener and without touching the overlay:
    the state is the one before the arrival except that the frame is gone
    and [asyncMenu] holds the stale value.  The overlay therefore still
    shows the loading placeholder only if nothing else changed it in
    between. *)
Theorem stale_result_changes_nothing
    (options : MenuConfig) (graph_container : ElemId)
    (getElementById : string -> option ElemId)
    (st0 : State) (acts later : list Action)
    (e : IG6GraphEvent) (lay : Layout) (f : nat) (v : Content) :
  init options graph_container getElementById = Some st0 ->
  let st := run options graph_container getElementById acts st0 in
  let st1 := snd (onMenuShow options e lay st) in
  let st2 := run options graph_container getElementById later st1 in
  let st3 := step options graph_container getElementById (Settle f v) st2 in
  fst (onMenuShow options e lay st) = Awaiting ->
  frame_of f st2 = Some e ->
  loose_neq (itemId e) (currentTarget st2) = true ->
  (displayed_with (markup (loadingContent options)) st1 /\ no_listeners st1)
  /\ st3 = with_asyncMenu (Some v) (drop_frame f st2)
  /\ menu st3 = menu st2
  /\ bodyListeners st3 = bodyListeners st2
  /\ handleMenuClickWrapper st3 = handleMenuClickWrapper st2
  /\ handler st3 = handler st2.
Proof.
  intros Hinit st st1 st2 st3 Hw Hf Hn.
  assert (Hinv : listeners_tracked st).
  { apply (run_invariant options graph_container getElementById acts st0).
    apply init_invariant. exact Hinit. }
  rewrite onMenuShow_completion in Hw.
  destruct (show_suspends options e st) eqn:Hs; [|discriminate Hw].
  destruct (show_suspends_filters options e st Hs) as (Ha & Hb & Hg & Hc).
  split.
  - split.
    + destruct (onMenuShow_shown options e lay st Ha Hb) as [Hst Hh].
      split; [subst st1; rewrite Hst; reflexivity|].
      subst st1. rewrite Hh. unfold first_markup, written_markup.
      rewrite Hg. unfold cache_applies in Hc.
      apply negb_false_iff in Hc. rewrite Hc. reflexivity.
    + apply onMenuShow_suspended_no_listeners; assumption.
  - assert (E : st3 = with_asyncMenu (Some v) (drop_frame f st2)).
    { subst st3. cbn [step]. rewrite Hf.
      rewrite onMenuShow_resume_stale by exact Hn. reflexivity. }
    rewrite E. repeat split.
Qed.

Lemma stale_result_changes_nothing_witness :
  let st := created deferred_options host_container in
  let st1 := snd (onMenuShow deferred_options (node_event "a")
                    sample_layout st) in
  let st2 := run deferred_options host_container no_elements
               [Show (node_event "b") sample_layout] st1 in
  let st3 := step deferred_options host_container no_elements
               (Settle 0 (CString "<ul>A</ul>")) st2 in
  (displayed_with (markup (loadingContent deferred_options)) st1
   /\ no_listeners st1)
  /\ st3 = with_asyncMenu (Some (CString "<ul>A</ul>")) (drop_frame 0 st2)
  /\ menu st3 = menu st2
  /\ bodyListeners st3 = bodyListeners st2
  /\ handleMenuClickWrapper st3 = handleMenuClickWrapper st2
  /\ handler st3 = handler st2.
Proof.
  apply (stale_result_changes_nothing deferred_options host_container
           no_elements (created deferred_options host_container) []
           [Show (node_event "b") sample_layout]
           (node_event "a") sample_layout 0%nat (CString "<ul>A</ul>"));
    reflexivity.
Defined.

(** C1.  The code at the input that breaks the claim: shows on [a] and
    then on [b] are both waiting for their content.  The result for [a]
    arrives while the current target is [b]: it is stale and is not
    rendered in that turn, but line 199 has stored it in [asyncMenu]
    before the staleness check of line 201.  The next show on [b] finds
    the cache test of line 197 satisfied and renders the result of [a] as
    the menu of [b]. *)
Theorem stale_result_rendered_by_next_show :
  match started deferred_options
          [Show (node_event "a") sample_layout;
           Show (node_event "b") sample_layout] with
  | Some st =>
      frame_of 0 st = Some (node_event "a")
      /\ loose_neq (itemId (node_event "a")) (currentTarget st) = true
      /\ displayed_with (markup (loadingContent deferred_options))
           (step deferred_options host_container no_elements
              (Settle 0 (CString "<ul>A</ul>")) st)
      /\ displayed_with "<ul>A</ul>"
           (run deferred_options host_container no_elements
              [Settle 0 (CString "<ul>A</ul>");
               Show (node_event "b") sample_layout] st)
  | None => False
  end.
Proof.
  cbv beta iota delta [started init resolve_container deferred_options
                       container].
  repeat split; reflexivity.
Qed.

(** * Further properties of the life cycle *)

(** ** Helper facts *)

Section MoreFrame.

Variable options : MenuConfig.

Lemma filter_twice {A : Type} (f : A -> bool) (l : list A) :
  filter f (filter f l) = filter f l.
Proof.
  induction l as [|a l IH]; [reflexivity|]. cbn.
  destruct (f a) eqn:E; cbn; rewrite ?E, IH; reflexivity.
Qed.

Lemma removeMenuEventListener_twice st :
  removeMenuEventListener (removeMenuEventListener st)
  = removeMenuEventListener st.
Proof.
  unfold removeMenuEventListener.
  destruct st as [m w h ct am bl su n cl]; cbn.
  destruct w; cbn; destruct h; cbn; unfold with_bodyListeners; cbn;
    unfold body_removeEventListener; rewrite ?filter_twice; reflexivity.
Qed.

Lemma onMenuHide_twice st : onMenuHide (onMenuHide st) = onMenuHide st.
Proof.
  unfold onMenuHide, removeMenuEventListener.
  destruct st as [m w h ct am bl su n cl]; cbn.
  destruct w; cbn; destruct h; cbn; unfold with_bodyListeners; cbn;
    unfold body_removeEventListener; rewrite ?filter_twice; reflexivity.
Qed.

(** What [attach_listeners] registers: one outside-click handler whose
    [triggeredByFirstClick] is set exactly for the click trigger, and one
    click wrapper capturing [e.itemId] when [handleMenuClick] is
    configured. *)
Lemma attach_listeners_shape e st :
  listeners_tracked st ->
  (exists h,
      bodyListeners (attach_listeners options e st)
      = [{| hid := h;
            triggeredByFirstClick :=
              match trigger options with
              | click => true
              | contextmenu => false
              end |}]
      /\ handler (attach_listeners options e st) = Some h)
  /\ map captured_itemId (clickListeners (menu (attach_listeners options e st)))
     = if handleMenuClick options then [itemId e] else [].
Proof.
  intros H. destruct (removeMenuEventListener_clears st H) as [[Hm Hb] Hw].
  unfold attach_listeners.
  destruct (handleMenuClick options); cbn; rewrite ?Hm, ?Hb; cbn.
  - split; [eexists; split; reflexivity | reflexivity].
  - split; [eexists; split; reflexivity | reflexivity].
Qed.

Lemma inject_content_cache_fields e mc st :
  asyncMenu (snd (inject_content options e mc st)) = asyncMenu st
  /\ currentTarget (snd (inject_content options e mc st))
     = match mc with
       | MPromise => if cache_applies e st then currentTarget st else itemId e
       | _ => currentTarget st
       end.
Proof.
  unfold inject_content, cache_applies.
  destruct mc; cbn [snd];
    try (destruct (attach_listeners_fields options e
                     (with_menu (set_innerHTML s (menu st)) st))
           as (Hc & Ha & _); rewrite Hc, Ha; split; reflexivity);
    try (destruct (attach_listeners_fields options e
                     (with_menu (set_innerHTML outerHTML (menu st)) st))
           as (Hc & Ha & _); rewrite Hc, Ha; split; reflexivity).
  cbn [currentTarget asyncMenu with_menu].
  destruct (loose_neq (itemId e) (currentTarget st)
            || negb (truthy_content (asyncMenu st))) eqn:Hc; cbn [negb snd].
  - split; reflexivity.
  - apply cache_applies_not_stale in Hc as [Hn [c Hc]].
    unfold onMenuShow_rest. cbn [currentTarget asyncMenu with_menu].
    rewrite Hn, Hc. cbn [snd].
    destruct (attach_listeners_fields options e
                (with_menu (set_innerHTML (markup c)
                              (menu (with_menu
                                       (set_innerHTML
                                          (markup (loadingContent options))
                                          (menu st)) st)))
                   (with_menu (set_innerHTML (markup (loadingContent options))
                                 (menu st)) st)))
      as (Hct & Ha & _).
    rewrite Hct, Ha. cbn. rewrite Hc. split; reflexivity.
Qed.

(** The filters and the cache test are evaluated on the fields of the
    state in which the show started. *)
Lemma show_prepared_cache e lay st :
  cache_applies e
    (place_overlay options e lay
       (log (CallGetContent e) (log (CallShouldBegin e) (show_prelude e st))))
  = cache_applies e st.
Proof.
  rewrite place_overlay_cache.
  change (cache_applies e (show_prelude e st) = cache_applies e st).
  apply show_prelude_cache.
Qed.

Lemma onMenuShow_cache_fields e lay st :
  asyncMenu (snd (onMenuShow options e lay st)) = asyncMenu st
  /\ currentTarget (snd (onMenuShow options e lay st))
     = if show_suspends options e st then itemId e else currentTarget st.
Proof.
  destruct (show_prelude_fields e st) as (Hc & Ha & _).
  rewrite onMenuShow_unfold. unfold show_suspends.
  destruct (itemType_allowed options e); cbn [negb andb].
  - destruct (shouldBegin options e); cbn [negb andb snd].
    + destruct (inject_content_cache_fields e (getContent options e)
                  (place_overlay options e lay
                     (log (CallGetContent e)
                        (log (CallShouldBegin e) (show_prelude e st)))))
        as [Ea Ec].
      rewrite Ea, Ec, show_prepared_cache.
      destruct (place_overlay_fields options e lay
                  (log (CallGetContent e)
                     (log (CallShouldBegin e) (show_prelude e st))))
        as (_ & _ & Pc & Pa & _).
      rewrite Pc, Pa. cbn [asyncMenu currentTarget log]. rewrite Hc, Ha.
      split; [reflexivity|].
      destruct (getContent options e); try reflexivity.
      destruct (cache_applies e st); reflexivity.
    + cbn [asyncMenu currentTarget log]. auto.
  - cbn [snd]. rewrite onMenuHide_asyncMenu, onMenuHide_currentTarget. auto.
Qed.

Lemma loose_neq_refl a : loose_neq a a = false.
Proof.
  destruct a as [s|]; [|reflexivity]. cbn. rewrite String.eqb_refl.
  reflexivity.
Qed.

Lemma loose_neq_sym a b : loose_neq a b = loose_neq b a.
Proof.
  destruct a as [s|], b as [t|]; try reflexivity.
  cbn. rewrite String.eqb_sym. reflexivity.
Qed.

End MoreFrame.

Section MoreListeners.

Variable options : MenuConfig.
Variable graph_container : ElemId.
Variable getElementById : string -> option ElemId.

Lemma set_innerHTML_tracked h st :
  listeners_tracked st ->
  listeners_tracked (with_menu (set_innerHTML h (menu st)) st).
Proof. intros H. exact H. Qed.

(** The state in which the content of a show that passed both filters is
    injected: visible, and without listeners. *)
Lemma show_prepared e lay st :
  listeners_tracked st ->
  let st1 := place_overlay options e lay
               (log (CallGetContent e)
                  (log (CallShouldBegin e) (show_prelude e st))) in
  listeners_tracked st1 /\ no_listeners st1
  /\ visibility (style (menu st1)) = visible.
Proof.
  intros H st1.
  destruct (show_prelude_clears e st H) as [[Hm Hb] Hw].
  assert (Hn : no_listeners st1 /\ handleMenuClickWrapper st1 = None).
  { subst st1. unfold no_listeners. rewrite place_overlay_menu.
    destruct (place_overlay_fields options e lay
                (log (CallGetContent e)
                   (log (CallShouldBegin e) (show_prelude e st))))
      as (Ew & _ & _ & _ & Eb & _).
    rewrite Ew, Eb. cbn. auto. }
  destruct Hn as [Hn Hw1].
  split; [apply no_listeners_tracked; assumption|]. split; [exact Hn|].
  subst st1. rewrite place_overlay_menu. reflexivity.
Qed.

(** A show that runs to its end is [attach_listeners] applied to a
    visible overlay. *)
Lemma onMenuShow_completes_attach e lay st :
  listeners_tracked st ->
  show_completes options e st = true ->
  exists X,
    listeners_tracked X
    /\ snd (onMenuShow options e lay st) = attach_listeners options e X
    /\ visibility (style (menu X)) = visible.
Proof.
  intros H Hc. unfold show_completes in Hc.
  destruct (itemType_allowed options e) eqn:Ha; [|discriminate Hc].
  destruct (shouldBegin options e) eqn:Hb; [|discriminate Hc].
  cbn [andb] in Hc.
  rewrite onMenuShow_unfold, Ha, Hb. cbn [negb].
  destruct (show_prepared e lay st H) as (Ht & _ & Hv).
  set (st1 := place_overlay options e lay _) in *.
  pose proof (show_prepared_cache options e lay st) as Hca. fold st1 in Hca.
  unfold inject_content.
  destruct (getContent options e) as [s|h|].
  - eexists. split; [|split; [reflexivity|]]; [exact Ht | exact Hv].
  - eexists. split; [|split; [reflexivity|]]; [exact Ht | exact Hv].
  - cbn [currentTarget asyncMenu with_menu].
    rewrite <- Hca in Hc. unfold cache_applies in Hc.
    apply negb_true_iff in Hc. rewrite Hc.
    apply cache_applies_not_stale in Hc as [Hn [c Hm]].
    unfold onMenuShow_rest. cbn [currentTarget asyncMenu with_menu].
    rewrite Hn, Hm. cbn [snd].
    eexists. split; [|split; [reflexivity|]]; [exact Ht | exact Hv].
Qed.

Lemma destroy_fields st :
  currentTarget (snd (destroy options graph_container getElementById st))
  = currentTarget st
  /\ asyncMenu (snd (destroy options graph_container getElementById st))
     = asyncMenu st
  /\ suspended (snd (destroy options graph_container getElementById st))
     = suspended st
  /\ style (menu (snd (destroy options graph_container getElementById st)))
     = style (menu st)
  /\ innerHTML (menu (snd (destroy options graph_container getElementById st)))
     = innerHTML (menu st).
Proof.
  unfold destroy.
  destruct (removeMenuEventListener_fields st) as (_ & Hc & Ha & Hs & _).
  pose proof (removeMenuEventListener_style st) as Hst.
  pose proof (removeMenuEventListener_innerHTML st) as Hi.
  destruct (resolve_container options graph_container getElementById);
    cbn [snd]; [|auto 6].
  destruct (parentNode (menu (removeMenuEventListener st))) as [p|];
    cbn [snd]; [|auto 6].
  destruct (Nat.eqb p e); cbn [snd]; cbn; auto 6.
Qed.

(** From the first [destroy] on, the overlay has no parent. *)
Lemma step_keeps_detached a st :
  parentNode (menu st) = None ->
  parentNode (menu (step options graph_container getElementById a st)) = None.
Proof.
  intros H. destruct a as [e lay|f v|f| |target|];
    try (rewrite step_parentNode by discriminate; exact H).
  cbn [step].
  destruct (destroy_frame options graph_container getElementById st)
    as (_ & _ & [E|E]); rewrite E; auto.
Qed.

Lemma run_keeps_detached acts st :
  parentNode (menu st) = None ->
  parentNode (menu (run options graph_container getElementById acts st)) = None.
Proof.
  revert st. induction acts as [|a acts IH]; intros st H; [exact H|].
  rewrite run_cons. apply IH, step_keeps_detached, H.
Qed.

Lemma destroy_step_detaches st :
  lifecycle_invariant options graph_container getElementById st ->
  resolve_container options graph_container getElementById <> None ->
  parentNode
    (menu (step options graph_container getElementById Destroy st)) = None.
Proof.
  intros (_ & _ & Hp) Hr. cbn [step]. unfold destroy.
  pose proof (removeMenuEventListener_parentNode st) as E.
  destruct (resolve_container options graph_container getElementById)
    as [c|] eqn:Hc; [|contradiction].
  destruct (parentNode (menu (removeMenuEventListener st))) as [p|] eqn:Ep;
    cbn [snd]; [|exact Ep].
  rewrite E in Ep. destruct Hp as [Hp|Hp]; [congruence|].
  assert (p = c) as -> by congruence.
  rewrite Nat.eqb_refl. reflexivity.
Qed.

Lemma run_after_destroy acts st :
  lifecycle_invariant options graph_container getElementById st ->
  resolve_container options graph_container getElementById <> None ->
  In Destroy acts ->
  parentNode (menu (run options graph_container getElementById acts st)) = None.
Proof.
  revert st. induction acts as [|a acts IH]; intros st Hi Hr Hin; [destruct Hin|].
  rewrite run_cons. destruct Hin as [->|Hin].
  - apply run_keeps_detached, destroy_step_detaches; assumption.
  - apply IH; [apply step_invariant; exact Hi | exact Hr | exact Hin].
Qed.

End MoreListeners.

Section Clicks.

Variable options : MenuConfig.

(** A click on the body when one handler is registered: the handler
    swallows the click if its [triggeredByFirstClick] is still set, and
    hides the menu if not. *)
Lemma body_click_single st h b :
  bodyListeners st = [{| hid := h; triggeredByFirstClick := b |}] ->
  body_click st
  = if b
    then with_bodyListeners [{| hid := h; triggeredByFirstClick := false |}] st
    else onMenuHide st.
Proof.
  intros H. unfold body_click, run_handler. rewrite H.
  cbn [map fold_left hid]. rewrite H. cbn [find map hid].
  rewrite Nat.eqb_refl. cbn [triggeredByFirstClick]. reflexivity.
Qed.



End Clicks.

(** ** Outside clicks *)

(** X1.  After a show that ran to its end, with the click trigger the
    first click that reaches the body is swallowed (the menu stays visible
    and its handler stays registered) and the second one hides the menu and
    detaches the listeners; with the context-menu trigger the first click
    already hides the menu and detaches the listeners. *)
Theorem first_outside_click
    (options : MenuConfig) (graph_container : ElemId)
    (getElementById : string -> option ElemId)
    (st0 : State) (acts : list Action) (e : IG6GraphEvent) (lay : Layout) :
  init options graph_container getElementById = Some st0 ->
  let st := run options graph_container getElementById acts st0 in
  let st1 := snd (onMenuShow options e lay st) in
  show_completes options e st = true ->
  match trigger options with
  | click =>
      visibility (style (menu (body_click st1))) = visible
      /\ List.length (bodyListeners (body_click st1)) = 1%nat
      /\ visibility (style (menu (body_click (body_click st1)))) = hidden
      /\ no_listeners (body_click (body_click st1))
  | contextmenu =>
      visibility (style (menu (body_click st1))) = hidden
      /\ no_listeners (body_click st1)
  end.
Proof.
  intros Hinit st st1 Hc.
  assert (Hinv : listeners_tracked st).
  { apply (run_invariant options graph_container getElementById acts st0).
    apply init_invariant. exact Hinit. }
  destruct (onMenuShow_completes_attach options e lay st Hinv Hc)
    as (X & HX & HE & HV).
  fold st1 in HE.
  destruct (attach_listeners_shape options e X HX) as [[h [Hb Hh]] _].
  destruct (attach_listeners_tracked options e X HX) as [Ht _].
  rewrite <- HE in Hb, Hh, Ht.
  assert (Hv1 : visibility (style (menu st1)) = visible).
  { rewrite HE, attach_listeners_style. exact HV. }
  rewrite (body_click_single st1 h _ Hb).
  destruct (trigger options).
  - set (s1 := with_bodyListeners _ st1).
    assert (Hb1 : bodyListeners s1
                  = [{| hid := h; triggeredByFirstClick := false |}])
      by reflexivity.
    rewrite (body_click_single s1 h false Hb1).
    assert (Ht1 : listeners_tracked s1).
    { split; [exact (proj1 Ht)|]. right. eexists. split; [exact Hb1|].
      exact Hh. }
    destruct (onMenuHide_clears s1 Ht1) as [Hn _].
    rewrite onMenuHide_style. repeat split; try apply Hn. exact Hv1.
  - destruct (onMenuHide_clears st1 Ht) as [Hn _].
    rewrite onMenuHide_style. split; [reflexivity | exact Hn].
Qed.

Lemma first_outside_click_witness :
  let st := run getDefaultCfgs host_container no_elements []
              (created getDefaultCfgs host_container) in
  let st1 := snd (onMenuShow getDefaultCfgs (node_event "n1")
                    sample_layout st) in
  match trigger getDefaultCfgs with
  | click =>
      visibility (style (menu (body_click st1))) = visible
      /\ List.length (bodyListeners (body_click st1)) = 1%nat
      /\ visibility (style (menu (body_click (body_click st1)))) = hidden
      /\ no_listeners (body_click (body_click st1))
  | contextmenu =>
      visibility (style (menu (body_click st1))) = hidden
      /\ no_listeners (body_click st1)
  end.
Proof.
  apply (first_outside_click getDefaultCfgs host_container no_elements
           (created getDefaultCfgs host_container) []
           (node_event "n1") sample_layout);
    reflexivity.
Defined.



(** ** Hiding *)

(** X3.  Hiding is idempotent: [onMenuHide] twice is [onMenuHide] once,
    and so is [removeMenuEventListener], although the latter keeps the
    [handler] field set and removes that handler again. *)
Theorem hide_idempotent (st : State) :
  onMenuHide (onMenuHide st) = onMenuHide st
  /\ removeMenuEventListener (removeMenuEventListener st)
     = removeMenuEventListener st
  /\ handler (removeMenuEventListener st) = handler st.
Proof.
  split; [apply onMenuHide_twice|].
  split; [apply removeMenuEventListener_twice|].
  apply removeMenuEventListener_fields.
Qed.

(** X4.  A show stopped by the item-type filter is exactly a hide (after
    the call of [preventDefault]); a show stopped by either filter returns
    in the same turn, leaves the overlay hidden, and changes neither its
    content and position nor the cache fields, the suspended frames or the
    number of provider calls. *)
Theorem stopped_show_only_hides
    (options : MenuConfig) (e : IG6GraphEvent) (lay : Layout) (st : State) :
  itemType_allowed options e && shouldBegin options e = false ->
  let r := onMenuShow options e lay st in
  fst r = Returned
  /\ (itemType_allowed options e = false ->
      snd r = onMenuHide (if preventDefault e
                          then log (CallPreventDefault e) st else st))
  /\ visibility (style (menu (snd r))) = hidden
  /\ innerHTML (menu (snd r)) = innerHTML (menu st)
  /\ top (style (menu (snd r))) = top (style (menu st))
  /\ left (style (menu (snd r))) = left (style (menu st))
  /\ currentTarget (snd r) = currentTarget st
  /\ asyncMenu (snd r) = asyncMenu st
  /\ suspended (snd r) = suspended st
  /\ provider_calls (snd r) = provider_calls st.
Proof.
  intros H r. subst r.
  destruct (show_prelude_fields e st) as (Hc & Ha & Hs & Hi & _).
  assert (Hst : style (menu (show_prelude e st))
                = {| top := top (style (menu st));
                     left := left (style (menu st));
                     position := position (style (menu st));
                     visibility := hidden |}).
  { unfold show_prelude. rewrite onMenuHide_style.
    destruct (preventDefault e); reflexivity. }
  assert (Hp : provider_calls (show_prelude e st) = provider_calls st).
  { unfold provider_calls. rewrite show_prelude_calls, filter_app, length_app.
    destruct (preventDefault e); cbn; lia. }
  rewrite onMenuShow_unfold.
  destruct (itemType_allowed options e); cbn [negb fst snd].
  - cbn in H. rewrite H. cbn [negb fst snd menu log currentTarget asyncMenu
                               suspended].
    rewrite Hst. cbn [top left visibility].
    repeat split; try assumption; try discriminate.
    unfold provider_calls in *. cbn [calls log].
    rewrite filter_app, length_app. cbn. lia.
  - assert (Hh : onMenuHide (show_prelude e st) = show_prelude e st)
      by (unfold show_prelude; apply onMenuHide_twice).
    rewrite Hh, Hst. cbn [top left visibility].
    repeat split; assumption.
Qed.

Lemma stopped_show_only_hides_witness :
  let st := run getDefaultCfgs host_container no_elements
              [Show (node_event "n1") sample_layout]
              (created getDefaultCfgs host_container) in
  let r := onMenuShow getDefaultCfgs canvas_event sample_layout st in
  fst r = Returned
  /\ (itemType_allowed getDefaultCfgs canvas_event = false ->
      snd r = onMenuHide (if preventDefault canvas_event
                          then log (CallPreventDefault canvas_event) st
                          else st))
  /\ visibility (style (menu (snd r))) = hidden
  /\ innerHTML (menu (snd r)) = innerHTML (menu st)
  /\ top (style (menu (snd r))) = top (style (menu st))
  /\ left (style (menu (snd r))) = left (style (menu st))
  /\ currentTarget (snd r) = currentTarget st
  /\ asyncMenu (snd r) = asyncMenu st
  /\ suspended (snd r) = suspended st
  /\ provider_calls (snd r) = provider_calls st.
Proof.
  apply (stopped_show_only_hides getDefaultCfgs canvas_event sample_layout
           (run getDefaultCfgs host_container no_elements
              [Show (node_event "n1") sample_layout]
              (created getDefaultCfgs host_container))).
  reflexivity.
Defined.

(** ** [init] and [destroy] *)



(** X6.  [destroy] can be called once: after any course of events in
    which [destroy] has already been called, the overlay has no parent and
    a further [destroy] throws at [removeChild] (having detached the
    listeners first). *)
Theorem destroy_twice_throws
    (options : MenuConfig) (graph_container : ElemId)
    (getElementById : string -> option ElemId)
    (st0 : State) (acts : list Action) :
  init options graph_container getElementById = Some st0 ->
  In Destroy acts ->
  let st := run options graph_container getElementById acts st0 in
  let r := destroy options graph_container getElementById st in
  parentNode (menu st) = None
  /\ fst r = Thrown
  /\ no_listeners (snd r).
Proof.
  intros Hinit Hin st r.
  pose proof (init_invariant options graph_container getElementById st0 Hinit)
    as Hi0.
  assert (Hr : resolve_container options graph_container getElementById
               <> None).
  { unfold init in Hinit.
    destruct (resolve_container options graph_container getElementById);
      [discriminate | discriminate Hinit]. }
  pose proof (run_after_destroy options graph_container getElementById
                acts st0 Hi0 Hr Hin) as Hp.
  fold st in Hp.
  pose proof (run_invariant options graph_container getElementById
                acts st0 Hi0) as (Ht & _).
  fold st in Ht.
  split; [exact Hp|]. split.
  - subst r. unfold destroy.
    rewrite removeMenuEventListener_parentNode, Hp.
    destruct (resolve_container options graph_container getElementById);
      reflexivity.
  - apply (destroy_frame options graph_container getElementById st). exact Ht.
Qed.

Lemma destroy_twice_throws_witness :
  let st := run getDefaultCfgs host_container no_elements
              [Show (node_event "n1") sample_layout; Destroy]
              (created getDefaultCfgs host_container) in
  let r := destroy getDefaultCfgs host_container no_elements st in
  parentNode (menu st) = None
  /\ fst r = Thrown
  /\ no_listeners (snd r).
Proof.
  apply (destroy_twice_throws getDefaultCfgs host_container no_elements
           (created getDefaultCfgs host_container)
           [Show (node_event "n1") sample_layout; Destroy]).
  - reflexivity.
  - right. left. reflexivity.
Defined.

(** X7.  [destroy] does not cancel a suspended show.  If a frame is
    still waiting when [destroy] is called and its result then arrives for
    the current target, the frame writes the result into the detached
    overlay and registers a fresh outside-click handler on
    [document.body]. *)
Theorem settle_after_destroy_attaches
    (options : MenuConfig) (graph_container : ElemId)
    (getElementById : string -> option ElemId)
    (st0 : State) (acts : list Action)
    (f : nat) (e : IG6GraphEvent) (v : Content) :
  init options graph_container getElementById = Some st0 ->
  let st := run options graph_container getElementById acts st0 in
  let st' := run options graph_container getElementById
               [Destroy; Settle f v] st in
  ~ In Destroy acts ->
  frame_of f st = Some e ->
  loose_neq (itemId e) (currentTarget st) = false ->
  parentNode (menu st') = None
  /\ innerHTML (menu st') = markup v
  /\ List.length (bodyListeners st') = 1%nat.
Proof.
  intros Hinit st st' Hnd Hf Hn.
  pose proof (init_invariant options graph_container getElementById st0 Hinit)
    as Hi0.
  pose proof (run_invariant options graph_container getElementById
                acts st0 Hi0) as Hi.
  fold st in Hi.
  assert (Hr : resolve_container options graph_container getElementById
               <> None).
  { unfold init in Hinit.
    destruct (resolve_container options graph_container getElementById);
      [discriminate | discriminate Hinit]. }
  pose proof (destroy_step_detaches options graph_container getElementById
                st Hi Hr) as Hp.
  pose proof (step_invariant options graph_container getElementById
                Destroy st Hi) as (Ht & _).
  destruct (destroy_fields options graph_container getElementById st)
    as (Ec & _ & Es & _).
  subst st'. rewrite !run_cons.
  set (sd := step options graph_container getElementById Destroy st) in *.
  change (run options graph_container getElementById [] ?s) with s.
  assert (Hfd : frame_of f sd = Some e).
  { unfold frame_of. subst sd. cbn [step]. rewrite Es. exact Hf. }
  cbn [step]. rewrite Hfd.
  unfold onMenuShow_resume, onMenuShow_rest.
  cbn [currentTarget asyncMenu with_asyncMenu drop_frame with_suspended].
  assert (Hcd : currentTarget sd = currentTarget st)
    by (subst sd; cbn [step]; exact Ec).
  rewrite Hcd, Hn. cbn [snd].
  rewrite attach_listeners_parentNode, attach_listeners_innerHTML.
  split; [exact Hp|]. split; [reflexivity|].
  apply attach_listeners_tracked. exact Ht.
Qed.

Lemma settle_after_destroy_attaches_witness :
  let st := run deferred_options host_container no_elements
              [Show (node_event "n1") sample_layout]
              (created deferred_options host_container) in
  let st' := run deferred_options host_container no_elements
               [Destroy; Settle 0 (CString "<ul>A</ul>")] st in
  parentNode (menu st') = None
  /\ innerHTML (menu st') = markup (CString "<ul>A</ul>")
  /\ List.length (bodyListeners st') = 1%nat.
Proof.
  apply (settle_after_destroy_attaches deferred_options host_container
           no_elements (created deferred_options host_container)
           [Show (node_event "n1") sample_layout]
           0%nat (node_event "n1") (CString "<ul>A</ul>")).
  - reflexivity.
  - intros [H|[]]. discriminate H.
  - reflexivity.
  - reflexivity.
Defined.

(** ** The content provider and the cache *)

(** X8.  One show invokes the content provider not at all when a filter
    stops it, twice when it is suspended for deferred content (the request
    of line 160 and the awaited one of line 199), and once otherwise. *)
Theorem provider_calls_per_show
    (options : MenuConfig) (e : IG6GraphEvent) (lay : Layout) (st : State) :
  provider_calls (snd (onMenuShow options e lay st))
  = (provider_calls st
     + if itemType_allowed options e && shouldBegin options e
       then if show_suspends options e st then 2 else 1
       else 0)%nat.
Proof.
  unfold provider_calls. rewrite onMenuShow_calls, filter_app, length_app.
  f_equal. unfold show_calls, show_suspends.
  rewrite filter_app, length_app.
  assert (Hp : List.length
                 (filter is_getContent
                    (if preventDefault e then [CallPreventDefault e] else []))
               = 0%nat) by (destruct (preventDefault e); reflexivity).
  rewrite Hp. cbn [Nat.add].
  destruct (itemType_allowed options e); [|reflexivity].
  destruct (shouldBegin options e); [|reflexivity].
  cbn [andb]. destruct (getContent options e); try reflexivity.
  destruct (cache_applies e st); reflexivity.
Qed.

(** X9.  The synchronous part of a show never assigns [asyncMenu], and it
    assigns [currentTarget] exactly when it is suspended for deferred
    content: a show that returns in the same turn (string or element
    content, content served from the cache, or a stopped show) leaves the
    cache of the last fetch as it is. *)
Theorem show_cache_fields
    (options : MenuConfig) (e : IG6GraphEvent) (lay : Layout) (st : State) :
  let r := onMenuShow options e lay st in
  asyncMenu (snd r) = asyncMenu st
  /\ (fst r = Awaiting -> currentTarget (snd r) = itemId e)
  /\ (fst r = Returned -> currentTarget (snd r) = currentTarget st).
Proof.
  intros r. subst r.
  destruct (onMenuShow_cache_fields options e lay st) as [Ha Hc].
  rewrite onMenuShow_completion, Hc.
  split; [exact Ha|].
  destruct (show_suspends options e st); split; intros H;
    try reflexivity; discriminate H.
Qed.

Lemma show_cache_fields_witness :
  currentTarget
    (snd (onMenuShow deferred_options (node_event "n1") sample_layout
            (created deferred_options host_container)))
  = itemId (node_event "n1").
Proof.
  apply (show_cache_fields deferred_options (node_event "n1") sample_layout
           (created deferred_options host_container)).
  reflexivity.
Defined.

(** X10.  The cache is tested by truthiness, so an empty-string result is
    never served from it.  After the result [v] of a frame has been
    accepted for the current target, the next show on that target (passing
    the filters, with deferred content) fetches again exactly when [v] is
    the empty string. *)
Theorem empty_result_not_cached
    (options : MenuConfig) (e : IG6GraphEvent) (v : Content) (st : State) :
  loose_neq (itemId e) (currentTarget st) = false ->
  itemType_allowed options e = true ->
  shouldBegin options e = true ->
  getContent options e = MPromise ->
  let st' := snd (onMenuShow_resume options e v st) in
  asyncMenu st' = Some v
  /\ show_suspends options e st'
     = match v with
       | CString s => (s =? "")%string
       | CElement _ => false
       end.
Proof.
  intros Hn Ha Hb Hg st'.
  assert (E : asyncMenu st' = Some v /\ currentTarget st' = currentTarget st).
  { subst st'. unfold onMenuShow_resume, onMenuShow_rest.
    cbn [currentTarget asyncMenu with_asyncMenu]. rewrite Hn. cbn [snd].
    destruct (attach_listeners_fields options e
                (with_menu (set_innerHTML (markup v)
                              (menu (with_asyncMenu (Some v) st)))
                   (with_asyncMenu (Some v) st)))
      as (Hc & Hm & _).
    rewrite Hc, Hm. split; reflexivity. }
  destruct E as [Em Ec]. split; [exact Em|].
  unfold show_suspends, cache_applies. rewrite Ha, Hb, Hg, Em, Ec, Hn.
  cbn. destruct v as [s|h]; cbn; [|reflexivity].
  destruct (s =? "")%string; reflexivity.
Qed.

Lemma empty_result_not_cached_witness :
  let st := snd (onMenuShow deferred_options (node_event "n1") sample_layout
                   (created deferred_options host_container)) in
  let st' := snd (onMenuShow_resume deferred_options (node_event "n1")
                    (CString "") st) in
  asyncMenu st' = Some (CString "")
  /\ show_suspends deferred_options (node_event "n1") st'
     = ("" =? "")%string.
Proof.
  apply (empty_result_not_cached deferred_options (node_event "n1")
           (CString "")
           (snd (onMenuShow deferred_options (node_event "n1") sample_layout
                   (created deferred_options host_container))));
    reflexivity.
Defined.

(** X11.  Repeated triggers on one target before the first result has
    arrived are not served from the cache: as long as [asyncMenu] is falsy,
    every show that passes the filters with deferred content is suspended
    and invokes the provider twice, and so is the same show repeated right
    after it. *)
Theorem pending_target_fetched_again
    (options : MenuConfig) (e : IG6GraphEvent) (lay lay' : Layout)
    (st : State) :
  truthy_content (asyncMenu st) = false ->
  itemType_allowed options e = true ->
  shouldBegin options e = true ->
  getContent options e = MPromise ->
  let st1 := snd (onMenuShow options e lay st) in
  let st2 := snd (onMenuShow options e lay' st1) in
  fst (onMenuShow options e lay st) = Awaiting
  /\ fst (onMenuShow options e lay' st1) = Awaiting
  /\ provider_calls st2 = (provider_calls st + 4)%nat
  /\ List.length (suspended st2) = (List.length (suspended st) + 2)%nat.
Proof.
  intros Ht Ha Hb Hg st1 st2.
  assert (Hs : show_suspends options e st = true).
  { unfold show_suspends, cache_applies. rewrite Ha, Hb, Hg, Ht.
    cbn. rewrite orb_true_r. reflexivity. }
  destruct (onMenuShow_cache_fields options e lay st) as [Em _].
  fold st1 in Em.
  assert (Hs1 : show_suspends options e st1 = true).
  { unfold show_suspends, cache_applies. rewrite Ha, Hb, Hg, Em, Ht.
    cbn. rewrite orb_true_r. reflexivity. }
  assert (Hsusp : forall l s,
            show_suspends options e s = true ->
            suspended (snd (onMenuShow options e l s))
            = suspended s ++ [(nextId (place_overlay options e l
                                 (log (CallGetContent e)
                                    (log (CallShouldBegin e)
                                       (show_prelude e s)))), e)]).
  { intros l s H.
    destruct (show_suspends_filters options e s H) as (_ & _ & _ & Hc).
    rewrite onMenuShow_unfold, Ha, Hb, Hg. cbn [negb].
    destruct (inject_content_completion options e MPromise
                (place_overlay options e l
                   (log (CallGetContent e)
                      (log (CallShouldBegin e) (show_prelude e s)))))
      as [_ E].
    rewrite E, show_prepared_cache, Hc.
    destruct (place_overlay_fields options e l
                (log (CallGetContent e)
                   (log (CallShouldBegin e) (show_prelude e s))))
      as (_ & _ & _ & _ & _ & Es & _).
    rewrite Es. cbn [suspended log].
    destruct (show_prelude_fields e s) as (_ & _ & Ep & _).
    rewrite Ep. reflexivity. }
  rewrite !onMenuShow_completion, Hs, Hs1.
  split; [reflexivity|]. split; [reflexivity|]. split.
  - unfold provider_calls in *. subst st2.
    rewrite onMenuShow_calls, filter_app, length_app.
    subst st1. rewrite onMenuShow_calls, filter_app, length_app.
    unfold show_calls. rewrite Ha, Hb, Hg.
    destruct (show_suspends_filters options e st Hs) as (_ & _ & _ & Hc).
    destruct (show_suspends_filters options e
                (snd (onMenuShow options e lay st)) Hs1)
      as (_ & _ & _ & Hc1).
    rewrite Hc, Hc1. rewrite !filter_app, !length_app.
    destruct (preventDefault e); cbn; lia.
  - subst st2. rewrite (Hsusp lay' st1 Hs1). subst st1.
    rewrite (Hsusp lay st Hs). rewrite !length_app. cbn. lia.
Qed.

Lemma pending_target_fetched_again_witness :
  let st := created deferred_options host_container in
  let st1 := snd (onMenuShow deferred_options (node_event "n1")
                    sample_layout st) in
  let st2 := snd (onMenuShow deferred_options (node_event "n1")
                    sample_layout st1) in
  fst (onMenuShow deferred_options (node_event "n1") sample_layout st)
  = Awaiting
  /\ fst (onMenuShow deferred_options (node_event "n1") sample_layout st1)
     = Awaiting
  /\ provider_calls st2 = (provider_calls st + 4)%nat
  /\ List.length (suspended st2) = (List.length (suspended st) + 2)%nat.
Proof.
  apply (pending_target_fetched_again deferred_options (node_event "n1")
           sample_layout sample_layout
           (created deferred_options host_container));
    reflexivity.
Defined.

(** X12.  A result that arrives for the current target is written into
    the overlay and the listeners are attached, but the style is left as
    it is: the frame does not make the overlay visible again if it was
    hidden while the frame was waiting.  The frame returns; it cannot
    throw, because [asyncMenu] has just been assigned. *)
Theorem accepted_result_rendered
    (options : MenuConfig) (graph_container : ElemId)
    (getElementById : string -> option ElemId)
    (st0 : State) (acts : list Action) (e : IG6GraphEvent) (v : Content) :
  init options graph_container getElementById = Some st0 ->
  let st := run options graph_container getElementById acts st0 in
  let r := onMenuShow_resume options e v st in
  loose_neq (itemId e) (currentTarget st) = false ->
  fst r = Returned
  /\ innerHTML (menu (snd r)) = markup v
  /\ style (menu (snd r)) = style (menu st)
  /\ asyncMenu (snd r) = Some v
  /\ List.length (bodyListeners (snd r)) = 1%nat
  /\ map captured_itemId (clickListeners (menu (snd r)))
     = if handleMenuClick options then [itemId e] else [].
Proof.
  intros Hinit st r Hn.
  assert (Hinv : listeners_tracked st).
  { apply (run_invariant options graph_container getElementById acts st0).
    apply init_invariant. exact Hinit. }
  subst r. unfold onMenuShow_resume, onMenuShow_rest.
  cbn [currentTarget asyncMenu with_asyncMenu]. rewrite Hn. cbn [fst snd].
  set (X := with_menu _ _).
  assert (HX : listeners_tracked X) by exact Hinv.
  rewrite attach_listeners_innerHTML, attach_listeners_style.
  destruct (attach_listeners_fields options e X) as (_ & Ha & _).
  destruct (attach_listeners_tracked options e X HX) as [_ Hl].
  destruct (attach_listeners_shape options e X HX) as [_ Hw].
  rewrite Ha, Hl, Hw. repeat split.
Qed.

Lemma accepted_result_rendered_witness :
  let st := run deferred_options host_container no_elements
              [Show (node_event "n1") sample_layout;
               Show canvas_event sample_layout]
              (created deferred_options host_container) in
  let r := onMenuShow_resume deferred_options (node_event "n1")
             (CString "<ul>A</ul>") st in
  fst r = Returned
  /\ innerHTML (menu (snd r)) = markup (CString "<ul>A</ul>")
  /\ style (menu (snd r)) = style (menu st)
  /\ asyncMenu (snd r) = Some (CString "<ul>A</ul>")
  /\ List.length (bodyListeners (snd r)) = 1%nat
  /\ map captured_itemId (clickListeners (menu (snd r)))
     = if handleMenuClick deferred_options
       then [itemId (node_event "n1")] else [].
Proof.
  apply (accepted_result_rendered deferred_options host_container
           no_elements (created deferred_options host_container)
           [Show (node_event "n1") sample_layout;
            Show canvas_event sample_layout]
           (node_event "n1") (CString "<ul>A</ul>"));
    reflexivity.
Defined.


(** X14.  The last target wins.  When a show on one target and then a
    show on a different target are both suspended, the overlay ends up
    with the result of the second show whichever result arrives first;
    [asyncMenu], however, ends up with whichever result arrived last. *)
Theorem last_target_wins
    (options : MenuConfig) (ea eb : IG6GraphEvent) (lay lay' : Layout)
    (va vb : Content) (st : State) :
  show_suspends options ea st = true ->
  itemType_allowed options eb = true ->
  shouldBegin options eb = true ->
  getContent options eb = MPromise ->
  loose_neq (itemId ea) (itemId eb) = true ->
  let st2 := snd (onMenuShow options eb lay'
                    (snd (onMenuShow options ea lay st))) in
  let a_then_b :=
    snd (onMenuShow_resume options eb vb
           (snd (onMenuShow_resume options ea va st2))) in
  let b_then_a :=
    snd (onMenuShow_resume options ea va
           (snd (onMenuShow_resume options eb vb st2))) in
  innerHTML (menu a_then_b) = markup vb
  /\ innerHTML (menu b_then_a) = markup vb
  /\ asyncMenu a_then_b = Some vb
  /\ asyncMenu b_then_a = Some va.
Proof.
  intros Hsa Ha Hb Hg Hne st2 a_then_b b_then_a.
  destruct (onMenuShow_cache_fields options ea lay st) as [_ Hc1].
  rewrite Hsa in Hc1.
  set (st1 := snd (onMenuShow options ea lay st)) in *.
  assert (Hsb : show_suspends options eb st1 = true).
  { unfold show_suspends, cache_applies. rewrite Ha, Hb, Hg, Hc1.
    rewrite loose_neq_sym, Hne. reflexivity. }
  destruct (onMenuShow_cache_fields options eb lay' st1) as [_ Hc2].
  rewrite Hsb in Hc2. fold st2 in Hc2.
  assert (Hstale : loose_neq (itemId ea) (currentTarget st2) = true)
    by (rewrite Hc2; exact Hne).
  assert (Hfresh : loose_neq (itemId eb) (currentTarget st2) = false)
    by (rewrite Hc2; apply loose_neq_refl).
  assert (Hacc : forall s, loose_neq (itemId eb) (currentTarget s) = false ->
            innerHTML (menu (snd (onMenuShow_resume options eb vb s)))
            = markup vb
            /\ asyncMenu (snd (onMenuShow_resume options eb vb s)) = Some vb
            /\ currentTarget (snd (onMenuShow_resume options eb vb s))
               = currentTarget s).
  { intros s Hs. unfold onMenuShow_resume, onMenuShow_rest.
    cbn [currentTarget asyncMenu with_asyncMenu]. rewrite Hs. cbn [snd].
    rewrite attach_listeners_innerHTML.
    destruct (attach_listeners_fields options eb
                (with_menu (set_innerHTML (markup vb)
                              (menu (with_asyncMenu (Some vb) s)))
                   (with_asyncMenu (Some vb) s)))
      as (Ec & Em & _).
    rewrite Ec, Em. repeat split. }
  subst a_then_b b_then_a. repeat split.
  - rewrite (onMenuShow_resume_stale options ea va st2 Hstale). cbn [snd].
    apply (Hacc (with_asyncMenu (Some va) st2)). exact Hfresh.
  - destruct (Hacc st2 Hfresh) as (Hi & _ & Hc).
    rewrite onMenuShow_resume_stale by (rewrite Hc; exact Hstale).
    cbn [snd menu with_asyncMenu]. exact Hi.
  - rewrite (onMenuShow_resume_stale options ea va st2 Hstale). cbn [snd].
    apply (Hacc (with_asyncMenu (Some va) st2)). exact Hfresh.
  - destruct (Hacc st2 Hfresh) as (_ & _ & Hc).
    rewrite onMenuShow_resume_stale by (rewrite Hc; exact Hstale).
    reflexivity.
Qed.

Lemma last_target_wins_witness :
  let st2 := snd (onMenuShow deferred_options (node_event "b") sample_layout
                    (snd (onMenuShow deferred_options (node_event "a")
                            sample_layout
                            (created deferred_options host_container)))) in
  let a_then_b :=
    snd (onMenuShow_resume deferred_options (node_event "b") (CString "B")
           (snd (onMenuShow_resume deferred_options (node_event "a")
                   (CString "A") st2))) in
  let b_then_a :=
    snd (onMenuShow_resume deferred_options (node_event "a") (CString "A")
           (snd (onMenuShow_resume deferred_options (node_event "b")
                   (CString "B") st2))) in
  innerHTML (menu a_then_b) = markup (CString "B")
  /\ innerHTML (menu b_then_a) = markup (CString "B")
  /\ asyncMenu a_then_b = Some (CString "B")
  /\ asyncMenu b_then_a = Some (CString "A").
Proof.
  apply (last_target_wins deferred_options (node_event "a") (node_event "b")
           sample_layout sample_layout (CString "A") (CString "B")
           (created deferred_options host_container));
    reflexivity.
Defined.

(** ** The click wrapper *)

(** X15.  After a show of [e] that ran to its end, a click on the overlay
    with target [t] calls [handleMenuClick] exactly once, with [t] and the
    [itemId] of [e], when a click handler is configured, and calls nothing
    when none is; the click on the overlay itself changes neither the
    overlay nor the outside-click handler. *)
Theorem overlay_click_forwards
    (options : MenuConfig) (graph_container : ElemId)
    (getElementById : string -> option ElemId)
    (st0 : State) (acts : list Action) (e : IG6GraphEvent) (lay : Layout)
    (target : nat) :
  init options graph_container getElementById = Some st0 ->
  let st := run options graph_container getElementById acts st0 in
  let st1 := snd (onMenuShow options e lay st) in
  show_completes options e st = true ->
  calls (overlay_click target st1)
  = calls st1
    ++ (if handleMenuClick options
        then [CallHandleMenuClick target (itemId e)] else [])
  /\ menu (overlay_click target st1) = menu st1
  /\ bodyListeners (overlay_click target st1) = bodyListeners st1.
Proof.
  intros Hinit st st1 Hc.
  assert (Hinv : listeners_tracked st).
  { apply (run_invariant options graph_container getElementById acts st0).
    apply init_invariant. exact Hinit. }
  destruct (onMenuShow_completes_attach options e lay st Hinv Hc)
    as (X & HX & HE & _).
  fold st1 in HE.
  destruct (attach_listeners_shape options e X HX) as [_ Hw].
  rewrite <- HE in Hw.
  destruct (overlay_click_frame target st1) as (Em & _ & _ & Eb & Ec).
  split; [|split; assumption].
  rewrite Ec. f_equal.
  rewrite <- (map_map captured_itemId (CallHandleMenuClick target)), Hw.
  destruct (handleMenuClick options); reflexivity.
Qed.

Lemma overlay_click_forwards_witness :
  let st := run deferred_options host_container no_elements
              [Show (node_event "n1") sample_layout;
               Settle 0 (CString "<ul>A</ul>")]
              (created deferred_options host_container) in
  let st1 := snd (onMenuShow deferred_options (node_event "n1")
                    sample_layout st) in
  calls (overlay_click 3 st1)
  = calls st1
    ++ (if handleMenuClick deferred_options
        then [CallHandleMenuClick 3 (itemId (node_event "n1"))] else [])
  /\ menu (overlay_click 3 st1) = menu st1
  /\ bodyListeners (overlay_click 3 st1) = bodyListeners st1.
Proof.
  apply (overlay_click_forwards deferred_options host_container no_elements
           (created deferred_options host_container)
           [Show (node_event "n1") sample_layout;
            Settle 0 (CString "<ul>A</ul>")]
           (node_event "n1") sample_layout 3%nat);
    reflexivity.
Defined.

(** ** Position, continued *)


